(** * Avatar Forge: store, scene builder, animator and exporters

    A shallow embedding of the three TypeScript sources

      - [src/state/avatarStore.ts]            (modules [Store], [Lookup], [Schedule])
      - [src/components/avatar/AvatarScene.tsx] (modules [Scene], [Model])
      - [src/utils/exporters.ts]              (modules [Exporters], [Census])

    and, from the page component, of the value grid of its [ControlSlider],
    of its restore effect and of its [handleSave] and [handleUpload]
    (module [Page]).

    JavaScript numbers are IEEE 754 binary64 values; they are embedded as
    Rocq's primitive [float], whose [+], [-], [*], [/] round to nearest even
    exactly as the JavaScript operators do.  Array lengths and loop counters,
    which only ever hold small non-negative integers, are [nat]; the signed
    polygon indices of the FBX writer are [Z].  Functions of the JavaScript
    runtime and of three.js that the sources call but do not define
    ([Math.sin], [Number.prototype.toFixed], [Vector3.applyMatrix4], ...) are
    fields of the interface classes [JsRuntime] and [ThreeLib]. *)

From Stdlib Require Import ZArith QArith Qround Floats Bool Lia Lqa ZifyNat Sorted.
From Stdlib Require Import Strings.String.
From stdpp Require Import base option list.

#[local] Set Warnings "-inexact-float,-register-all".
#[local] Open Scope list_scope.

(** [lia] also decides goals with [/] and [mod] by a literal. *)
#[local] Ltac Zify.zify_post_hook ::= Z.to_euclidean_division_equations.

(** ** JavaScript numbers *)

Module Js.

(** [Math.min] on two numbers: NaN if either is NaN, and [-0] below [+0]. *)
Definition Math_min (a b : float) : float :=
  if (is_nan a || is_nan b)%bool then nan
  else if (a <? b)%float then a
  else if (b <? a)%float then b
  else if get_sign a then a else b.

(** The number a non-negative array index or length denotes. *)
Definition number_of_nat (n : nat) : float :=
  PrimFloat.of_uint63 (Uint63.of_Z (Z.of_nat n)).

(** [l[0] <= l[1] <= ...], with the [<=] of numbers. *)
Fixpoint nondecreasing (l : list float) : bool :=
  match l with
  | x :: (y :: _) as l' => (x <=? y)%float && nondecreasing l'
  | _ => true
  end.

(** The integer part of a number, toward zero; 0 for NaN and the
    infinities. *)
Definition truncate (x : float) : Z :=
  match Prim2SF x with
  | S754_finite s m e =>
    let a := match e with
             | Zneg k => (Zpos m / 2 ^ Zpos k)%Z
             | _ => (Zpos m * 2 ^ e)%Z
             end in
    if s then (- a)%Z else a
  | _ => 0%Z
  end.

(** The milliseconds [setTimeout] waits when given [delay]: the argument is
    converted to a 32-bit integer, and a negative timeout counts as 0. *)
Definition timeout_ms (delay : float) : Z :=
  let w := (truncate delay mod 2 ^ 32)%Z in
  Z.max 0 (if (w <? 2 ^ 31)%Z then w else w - 2 ^ 32)%Z.

(** Reading a numeric array past its end yields [undefined], which every
    arithmetic operator turns into NaN. *)
Definition read (a : list float) (i : nat) : float := default nan (a !! i).

End Js.

(** ** [avatarStore.ts] *)

Module Store.

Variant AvatarStatus := idle | processing | ready.

Module UploadedImage.
Record t := { id : string; name : string; src : string; size : float }.
End UploadedImage.

Module Facial.
Record t := {
  eyeSpacing : float; eyeSize : float; noseWidth : float;
  noseLength : float; lipFullness : float; earSize : float }.
Variant key := EyeSpacing | EyeSize | NoseWidth | NoseLength | LipFullness | EarSize.
Definition field (k : key) : Type := float.
(** [{ ...c, [k]: v }] *)
Definition update (k : key) (v : field k) (c : t) : t :=
  match k with
  | EyeSpacing => {| eyeSpacing := v; eyeSize := eyeSize c; noseWidth := noseWidth c;
                     noseLength := noseLength c; lipFullness := lipFullness c; earSize := earSize c |}
  | EyeSize => {| eyeSpacing := eyeSpacing c; eyeSize := v; noseWidth := noseWidth c;
                  noseLength := noseLength c; lipFullness := lipFullness c; earSize := earSize c |}
  | NoseWidth => {| eyeSpacing := eyeSpacing c; eyeSize := eyeSize c; noseWidth := v;
                    noseLength := noseLength c; lipFullness := lipFullness c; earSize := earSize c |}
  | NoseLength => {| eyeSpacing := eyeSpacing c; eyeSize := eyeSize c; noseWidth := noseWidth c;
                     noseLength := v; lipFullness := lipFullness c; earSize := earSize c |}
  | LipFullness => {| eyeSpacing := eyeSpacing c; eyeSize := eyeSize c; noseWidth := noseWidth c;
                      noseLength := noseLength c; lipFullness := v; earSize := earSize c |}
  | EarSize => {| eyeSpacing := eyeSpacing c; eyeSize := eyeSize c; noseWidth := noseWidth c;
                  noseLength := noseLength c; lipFullness := lipFullness c; earSize := v |}
  end.
End Facial.

Module Head.
Record t := {
  headHeight : float; headWidth : float; chinDefinition : float;
  jawWidth : float; neckThickness : float }.
Variant key := HeadHeight | HeadWidth | ChinDefinition | JawWidth | NeckThickness.
Definition field (k : key) : Type := float.
Definition update (k : key) (v : field k) (c : t) : t :=
  match k with
  | HeadHeight => {| headHeight := v; headWidth := headWidth c; chinDefinition := chinDefinition c;
                     jawWidth := jawWidth c; neckThickness := neckThickness c |}
  | HeadWidth => {| headHeight := headHeight c; headWidth := v; chinDefinition := chinDefinition c;
                    jawWidth := jawWidth c; neckThickness := neckThickness c |}
  | ChinDefinition => {| headHeight := headHeight c; headWidth := headWidth c; chinDefinition := v;
                         jawWidth := jawWidth c; neckThickness := neckThickness c |}
  | JawWidth => {| headHeight := headHeight c; headWidth := headWidth c;
                   chinDefinition := chinDefinition c; jawWidth := v; neckThickness := neckThickness c |}
  | NeckThickness => {| headHeight := headHeight c; headWidth := headWidth c;
                        chinDefinition := chinDefinition c; jawWidth := jawWidth c; neckThickness := v |}
  end.
End Head.

Module Skin.
Record t := {
  tone : string; roughness : float; sheen : float; subsurface : float; freckles : float }.
Variant key := Tone | Roughness | Sheen | Subsurface | Freckles.
Definition field (k : key) : Type := match k with Tone => string | _ => float end.
Definition update (k : key) : field k -> t -> t :=
  match k return field k -> t -> t with
  | Tone => fun v c => {| tone := v; roughness := roughness c; sheen := sheen c;
                          subsurface := subsurface c; freckles := freckles c |}
  | Roughness => fun v c => {| tone := tone c; roughness := v; sheen := sheen c;
                               subsurface := subsurface c; freckles := freckles c |}
  | Sheen => fun v c => {| tone := tone c; roughness := roughness c; sheen := v;
                           subsurface := subsurface c; freckles := freckles c |}
  | Subsurface => fun v c => {| tone := tone c; roughness := roughness c; sheen := sheen c;
                                subsurface := v; freckles := freckles c |}
  | Freckles => fun v c => {| tone := tone c; roughness := roughness c; sheen := sheen c;
                              subsurface := subsurface c; freckles := v |}
  end.
End Skin.

Module Hair.
Variant Style := buzz | short | medium | long | braids.
Record t := {
  style : Style; color : string; secondaryColor : string;
  length : float; curl : float; volume : float }.
Variant key := KStyle | Color | SecondaryColor | Length | Curl | Volume.
Definition field (k : key) : Type :=
  match k with KStyle => Style | Color | SecondaryColor => string | _ => float end.
Definition update (k : key) : field k -> t -> t :=
  match k return field k -> t -> t with
  | KStyle => fun v c => {| style := v; color := color c; secondaryColor := secondaryColor c;
                            length := length c; curl := curl c; volume := volume c |}
  | Color => fun v c => {| style := style c; color := v; secondaryColor := secondaryColor c;
                           length := length c; curl := curl c; volume := volume c |}
  | SecondaryColor => fun v c => {| style := style c; color := color c; secondaryColor := v;
                                    length := length c; curl := curl c; volume := volume c |}
  | Length => fun v c => {| style := style c; color := color c; secondaryColor := secondaryColor c;
                            length := v; curl := curl c; volume := volume c |}
  | Curl => fun v c => {| style := style c; color := color c; secondaryColor := secondaryColor c;
                          length := length c; curl := v; volume := volume c |}
  | Volume => fun v c => {| style := style c; color := color c; secondaryColor := secondaryColor c;
                            length := length c; curl := curl c; volume := v |}
  end.
End Hair.

Module Body.
Record t := {
  height : float; weight : float; muscle : float; posture : float; shoulderWidth : float }.
Variant key := Height | Weight | Muscle | Posture | ShoulderWidth.
Definition field (k : key) : Type := float.
Definition update (k : key) (v : field k) (c : t) : t :=
  match k with
  | Height => {| height := v; weight := weight c; muscle := muscle c;
                 posture := posture c; shoulderWidth := shoulderWidth c |}
  | Weight => {| height := height c; weight := v; muscle := muscle c;
                 posture := posture c; shoulderWidth := shoulderWidth c |}
  | Muscle => {| height := height c; weight := weight c; muscle := v;
                 posture := posture c; shoulderWidth := shoulderWidth c |}
  | Posture => {| height := height c; weight := weight c; muscle := muscle c;
                  posture := v; shoulderWidth := shoulderWidth c |}
  | ShoulderWidth => {| height := height c; weight := weight c; muscle := muscle c;
                        posture := posture c; shoulderWidth := v |}
  end.
End Body.

Module Clothing.
Variant Outfit := casual | athletic | formal | street.
Record t := {
  outfit : Outfit; primaryColor : string; secondaryColor : string;
  fabricSheen : float; layering : float }.
Variant key := KOutfit | PrimaryColor | SecondaryColor | FabricSheen | Layering.
Definition field (k : key) : Type :=
  match k with KOutfit => Outfit | PrimaryColor | SecondaryColor => string | _ => float end.
Definition update (k : key) : field k -> t -> t :=
  match k return field k -> t -> t with
  | KOutfit => fun v c => {| outfit := v; primaryColor := primaryColor c;
                             secondaryColor := secondaryColor c;
                             fabricSheen := fabricSheen c; layering := layering c |}
  | PrimaryColor => fun v c => {| outfit := outfit c; primaryColor := v;
                                  secondaryColor := secondaryColor c;
                                  fabricSheen := fabricSheen c; layering := layering c |}
  | SecondaryColor => fun v c => {| outfit := outfit c; primaryColor := primaryColor c;
                                    secondaryColor := v;
                                    fabricSheen := fabricSheen c; layering := layering c |}
  | FabricSheen => fun v c => {| outfit := outfit c; primaryColor := primaryColor c;
                                 secondaryColor := secondaryColor c;
                                 fabricSheen := v; layering := layering c |}
  | Layering => fun v c => {| outfit := outfit c; primaryColor := primaryColor c;
                              secondaryColor := secondaryColor c;
                              fabricSheen := fabricSheen c; layering := v |}
  end.
End Clothing.

Record AvatarParameters := {
  facial : Facial.t; head : Head.t; skin : Skin.t;
  hair : Hair.t; body : Body.t; clothing : Clothing.t }.

(** The typed arguments of [setParameter(section, key, value)]: a section,
    one of that section's keys, and a value of that key's type. *)
Variant ParameterEdit :=
  | EditFacial (k : Facial.key) (v : Facial.field k)
  | EditHead (k : Head.key) (v : Head.field k)
  | EditSkin (k : Skin.key) (v : Skin.field k)
  | EditHair (k : Hair.key) (v : Hair.field k)
  | EditBody (k : Body.key) (v : Body.field k)
  | EditClothing (k : Clothing.key) (v : Clothing.field k).

(** [{ ...parameters, [section]: { ...parameters[section], [key]: value } }] *)
Definition edit_parameters (e : ParameterEdit) (p : AvatarParameters) : AvatarParameters :=
  match e with
  | EditFacial k v => {| facial := Facial.update k v (facial p); head := head p; skin := skin p;
                         hair := hair p; body := body p; clothing := clothing p |}
  | EditHead k v => {| facial := facial p; head := Head.update k v (head p); skin := skin p;
                       hair := hair p; body := body p; clothing := clothing p |}
  | EditSkin k v => {| facial := facial p; head := head p; skin := Skin.update k v (skin p);
                       hair := hair p; body := body p; clothing := clothing p |}
  | EditHair k v => {| facial := facial p; head := head p; skin := skin p;
                       hair := Hair.update k v (hair p); body := body p; clothing := clothing p |}
  | EditBody k v => {| facial := facial p; head := head p; skin := skin p;
                       hair := hair p; body := Body.update k v (body p); clothing := clothing p |}
  | EditClothing k v => {| facial := facial p; head := head p; skin := skin p;
                           hair := hair p; body := body p;
                           clothing := Clothing.update k v (clothing p) |}
  end.

(** The data fields of [AvatarState]; its methods are the definitions below. *)
Record AvatarState := {
  parameters : AvatarParameters;
  status : AvatarStatus;
  generationProgress : float;
  uploadedImages : list UploadedImage.t;
  lastSavedISO : option string }.

Definition defaultParameters : AvatarParameters := {|
  facial := {| Facial.eyeSpacing := 0.5; Facial.eyeSize := 0.5; Facial.noseWidth := 0.5;
               Facial.noseLength := 0.5; Facial.lipFullness := 0.5; Facial.earSize := 0.5 |};
  head := {| Head.headHeight := 0.5; Head.headWidth := 0.5; Head.chinDefinition := 0.5;
             Head.jawWidth := 0.5; Head.neckThickness := 0.5 |};
  skin := {| Skin.tone := "#c58c6d"; Skin.roughness := 0.35; Skin.sheen := 0.4;
             Skin.subsurface := 0.6; Skin.freckles := 0.15 |};
  hair := {| Hair.style := Hair.medium; Hair.color := "#1f1a17";
             Hair.secondaryColor := "#2f2723"; Hair.length := 0.6;
             Hair.curl := 0.35; Hair.volume := 0.55 |};
  body := {| Body.height := 0.6; Body.weight := 0.5; Body.muscle := 0.6;
             Body.posture := 0.5; Body.shoulderWidth := 0.55 |};
  clothing := {| Clothing.outfit := Clothing.athletic; Clothing.primaryColor := "#243447";
                 Clothing.secondaryColor := "#7e94ff"; Clothing.fabricSheen := 0.45;
                 Clothing.layering := 0.4 |} |}.

Definition initialState : AvatarState := {|
  parameters := defaultParameters; status := idle; generationProgress := 0;
  uploadedImages := []; lastSavedISO := None |}.

(** A partial state, as handed to zustand's [set]: the keys present in the
    object literal are [Some]. *)
Record Partial := {
  parameters' : option AvatarParameters;
  status' : option AvatarStatus;
  generationProgress' : option float;
  uploadedImages' : option (list UploadedImage.t);
  lastSavedISO' : option (option string) }.

(** zustand's [set(partial)]: a shallow merge of the keys present. *)
Definition set (f : AvatarState -> Partial) (state : AvatarState) : AvatarState :=
  let p := f state in {|
  parameters := default (parameters state) (parameters' p);
  status := default (status state) (status' p);
  generationProgress := default (generationProgress state) (generationProgress' p);
  uploadedImages := default (uploadedImages state) (uploadedImages' p);
  lastSavedISO := default (lastSavedISO state) (lastSavedISO' p) |}.

Definition setParameters (params : AvatarParameters) : AvatarState -> AvatarState :=
  set (fun _ => {| parameters' := Some params; status' := Some idle;
                   generationProgress' := None; uploadedImages' := None;
                   lastSavedISO' := None |}).

Definition setParameter (e : ParameterEdit) : AvatarState -> AvatarState :=
  set (fun state => {|
    parameters' := Some (edit_parameters e (parameters state));
    status' := Some (match status state with ready => idle | s => s end);
    generationProgress' := None; uploadedImages' := None; lastSavedISO' := None |}).

Definition setStatus (s : AvatarStatus) : AvatarState -> AvatarState :=
  set (fun _ => {| parameters' := None; status' := Some s; generationProgress' := None;
                   uploadedImages' := None; lastSavedISO' := None |}).

Definition setGenerationProgress (value : float) : AvatarState -> AvatarState :=
  set (fun _ => {| parameters' := None; status' := None; generationProgress' := Some value;
                   uploadedImages' := None; lastSavedISO' := None |}).

Definition addUpload (image : UploadedImage.t) : AvatarState -> AvatarState :=
  set (fun state => {| parameters' := None; status' := None; generationProgress' := None;
                       uploadedImages' := Some (uploadedImages state ++ [image]);
                       lastSavedISO' := None |}).

Definition removeUpload (id : string) : AvatarState -> AvatarState :=
  set (fun state => {|
    parameters' := None; status' := None; generationProgress' := None;
    uploadedImages' :=
      Some (List.filter (fun img => negb (String.eqb (UploadedImage.id img) id))
                        (uploadedImages state));
    lastSavedISO' := None |}).

Definition resetUploads : AvatarState -> AvatarState :=
  set (fun _ => {| parameters' := None; status' := None; generationProgress' := None;
                   uploadedImages' := Some []; lastSavedISO' := None |}).

Definition markSaved (iso : string) : AvatarState -> AvatarState :=
  set (fun _ => {| parameters' := None; status' := None; generationProgress' := None;
                   uploadedImages' := None; lastSavedISO' := Some (Some iso) |}).

Definition resetParameters : AvatarState -> AvatarState :=
  set (fun _ => {| parameters' := Some defaultParameters; status' := Some idle;
                   generationProgress' := None; uploadedImages' := None;
                   lastSavedISO' := None |}).

(** *** [generateAvatar] and its timers

    [setTimeout(callback, delay)] registers a callback to run [delay]
    milliseconds from now; the event loop runs the registered callbacks by
    increasing due time, and in registration order among equal due times.
    No timer is ever cancelled: the store calls [clearTimeout] nowhere. *)

Record Timer := { due : Z; callback : AvatarState -> AvatarState }.

(** The store, the time in milliseconds, and the timers pending, in
    registration order. *)
Record Runtime := { store : AvatarState; clock : Z; timers : list Timer }.

Definition setTimeout (cb : AvatarState -> AvatarState) (delay : float) (r : Runtime)
    : Runtime :=
  {| store := store r; clock := clock r;
     timers := timers r ++ [{| due := clock r + Js.timeout_ms delay; callback := cb |}] |}.

(** A store action run at the current time. *)
Definition dispatch (action : AvatarState -> AvatarState) (r : Runtime) : Runtime :=
  {| store := action (store r); clock := clock r; timers := timers r |}.

Definition totalDuration : float := 3000.
Definition steps : list float := [0; 18; 37; 58; 76; 92; 100]%float.

(** The callback of a step's timer. *)
Definition step_callback (value : float) : AvatarState -> AvatarState :=
  set (fun state => {|
    parameters' := None;
    status' := Some (if (100 <=? value)%float then ready else status state);
    generationProgress' := Some value;
    uploadedImages' := None; lastSavedISO' := None |}).

(** The delay of the step at [index]. *)
Definition step_delay (index : nat) : float :=
  Js.Math_min
    (totalDuration * (Js.number_of_nat index / (Js.number_of_nat (List.length steps) - 1)))
    totalDuration.

(** The body of [steps.forEach((value, index) => ...)]. *)
Definition schedule_step (r : Runtime) (index : nat) (value : float) : Runtime :=
  setTimeout (step_callback value) (step_delay index) r.

Definition generateAvatar (r : Runtime) : Runtime :=
  match status (store r) with
  | processing => r
  | _ =>
    let r := dispatch (set (fun _ => {| parameters' := None; status' := Some processing;
                                        generationProgress' := Some 0%float;
                                        uploadedImages' := None; lastSavedISO' := None |}))
                      r in
    foldl (fun r iv => schedule_step r (fst iv) (snd iv)) r (imap pair steps)
  end.

(** The order in which the event loop fires pending timers. *)
Fixpoint enqueue (t : Timer) (queue : list Timer) : list Timer :=
  match queue with
  | [] => [t]
  | u :: queue' => if (due t <? due u)%Z then t :: queue else u :: enqueue t queue'
  end.

Definition firing_order (pending : list Timer) : list Timer :=
  foldl (fun queue t => enqueue t queue) [] pending.

(** Running the timers of [queue] in order from [state]: the store as each
    callback leaves it, paired with the time the callback was due. *)
Fixpoint run_timers (queue : list Timer) (state : AvatarState) : list (Z * AvatarState) :=
  match queue with
  | [] => []
  | t :: queue' => let state' := callback t state in (due t, state') :: run_timers queue' state'
  end.

(** What the store goes through while the pending timers run, if nothing
    else acts on it. *)
Definition timeline (r : Runtime) : list (Z * AvatarState) :=
  run_timers (firing_order (timers r)) (store r).

(** What a run shows of the store: each time with the status and progress
    the callback due then leaves. *)
Definition observe (run : list (Z * AvatarState)) : list (Z * AvatarStatus * float) :=
  map (fun '(t, state) => (t, status state, generationProgress state)) run.

(** Time passes until [t]: the timers due by then run, the others stay
    pending. *)
Definition elapse (t : Z) (r : Runtime) : Runtime := {|
  store := foldl (fun state tm => callback tm state) (store r)
                 (List.filter (fun tm => (due tm <=? t)%Z) (firing_order (timers r)));
  clock := Z.max (clock r) t;
  timers := List.filter (fun tm => negb (due tm <=? t)%Z) (timers r) |}.

End Store.

(** ** The parts of three.js and of the JavaScript runtime the sources use *)

Module Three.

Record Vector3 := { x : float; y : float; z : float }.

Record Color := { r : float; g : float; b : float }.

(** three.js [Color.lerp(color, alpha)]: each channel moves from [this]
    toward [color] by the fraction [alpha],
    [this.r += (color.r - this.r) * alpha]. *)
Definition Color_lerp (this color : Color) (alpha : float) : Color := {|
  r := r this + (r color - r this) * alpha;
  g := g this + (g color - g this) * alpha;
  b := b this + (b color - b this) * alpha |}%float.

(** Channel by channel [===]. *)
Definition Color_eqb (this color : Color) : bool :=
  ((r this =? r color) && (g this =? g color) && (b this =? b color))%float.

(** No channel of [this] is NaN and no channel difference [color - this]
    overflows; so it is for colours, whose channels lie between 0 and 1. *)
Definition blendable (this color : Color) : bool :=
  negb (is_nan (r this)) && negb (is_nan (g this)) && negb (is_nan (b this))
  && is_finite (r color - r this) && is_finite (g color - g this)
  && is_finite (b color - b this).

End Three.

(** What the sources call and do not define.  Values of the abstract types
    are opaque to the sources as well. *)
Class JsRuntime := {
  Math_sin : float -> float;
  Math_cos : float -> float;
  (** the rounding a [Float32Array] applies to a number stored in it *)
  Math_fround : float -> float;
  (** [value.toFixed(6)] *)
  toFixed6 : float -> string;
  parseFloat : string -> float;
  (** a plain object, and [JSON.stringify(object, null, 2)] *)
  JsObject : Type;
  JSON_stringify2 : JsObject -> string }.

Class ThreeLib := {
  (** [new Color(style)] for a CSS colour string *)
  Color_of_string : string -> Three.Color;
  (** the normal buffer [BufferGeometry.computeVertexNormals] derives from
      a position buffer (the topology of the cloth grid is fixed) *)
  computeVertexNormals : list float -> list float;
  Matrix4 : Type;
  Matrix3 : Type;
  (** [a.multiplyMatrices(a, b)] *)
  multiplyMatrices : Matrix4 -> Matrix4 -> Matrix4;
  (** [v.applyMatrix4(m)] *)
  applyMatrix4 : Matrix4 -> Three.Vector3 -> Three.Vector3;
  (** [n.getNormalMatrix(m)] *)
  getNormalMatrix : Matrix4 -> Matrix3;
  (** [v.applyMatrix3(m)] *)
  applyMatrix3 : Matrix3 -> Three.Vector3 -> Three.Vector3;
  (** [v.normalize()] *)
  normalize : Three.Vector3 -> Three.Vector3 }.

(** ** [AvatarScene.tsx] *)

Module Scene.

Import Store.

Definition lerp (value min max : float) : float := (min + (max - min) * value)%float.




Record HairLayer := { radius : float; height : float; offset : float }.

Definition layers : nat := 6.

Definition hairLayers (hair : Hair.t) : list HairLayer :=
  map (fun index : nat =>
         let t := (Js.number_of_nat index / Js.number_of_nat layers)%float in
         let radius := (lerp (Hair.volume hair) 0.4 0.85 * (1 - t * 0.15))%float in
         let height :=
           (lerp (Hair.length hair) 0.4 1.4 *
            (match Hair.style hair with Hair.buzz => 0.3 | _ => 1 - t * 0.1 end))%float in
         {| radius := radius; height := height; offset := t |})
      (seq 0 layers).

(** The props of a [<meshPhysicalMaterial>] of the hair group; a prop that
    is not given is [None]. *)
Record HairMaterial := {
  color : Three.Color;
  roughness : float;
  metalness : float;
  clearcoat : float;
  clearcoatRoughness : option float }.

(** A [<mesh>] of the hair group with its [<sphereGeometry args=...>]. *)
Record HairMesh := {
  position : option Three.Vector3;
  scale : Three.Vector3;
  sphere_args : float * nat * nat;
  material : HairMaterial }.

Record HairGroup := { group_position : Three.Vector3; children : list HairMesh }.

(** The interpolation factor handed to [Color.lerp] for a layer. *)
Definition blend_factor (layer : HairLayer) : float := (offset layer * 0.6)%float.

(** Layer [b] lies above layer [a] and is blended further. *)
Definition rising (a b : HairLayer) : Prop :=
  (offset a <? offset b)%float = true /\ (blend_factor a <? blend_factor b)%float = true.

Section Builder.
Context `{ThreeLib}.

Definition hairHue (parameters : AvatarParameters) : Three.Color :=
  Color_of_string (Hair.color (hair parameters)).

Definition secondaryHairColor (parameters : AvatarParameters) : Three.Color :=
  Color_of_string (Hair.secondaryColor (hair parameters)).

Definition hair_layer_mesh (parameters : AvatarParameters) (layer : HairLayer) : HairMesh := {|
  position := Some {| Three.x := 0;
                      Three.y := (offset layer - 0.5) * Hair.length (hair parameters);
                      Three.z := 0 |}%float;
  scale := {| Three.x := radius layer; Three.y := height layer; Three.z := radius layer |};
  sphere_args := (0.4%float, 48, 48);
  material := {|
    color := Three.Color_lerp (hairHue parameters) (secondaryHairColor parameters)
                              (blend_factor layer);
    roughness := lerp (Hair.curl (hair parameters)) 0.2 0.45;
    metalness := 0.05;
    clearcoat := 0.7;
    clearcoatRoughness := Some 0.25%float |} |}.

Definition buzz_mesh (parameters : AvatarParameters) : HairMesh := {|
  position := None;
  scale := {| Three.x := 0.95; Three.y := 0.85; Three.z := 0.95 |};
  sphere_args := (0.42%float, 48, 48);
  material := {|
    color := hairHue parameters;
    roughness := 0.35;
    metalness := 0.02;
    clearcoat := 0.5;
    clearcoatRoughness := None |} |}.

(** The [<group ref={hairGroupRef}>] element of [AvatarModel] and its
    children (React keys, which are no part of the scene graph, left out). *)
Definition hairGroup (parameters : AvatarParameters) : HairGroup := {|
  group_position := {| Three.x := 0;
                       Three.y := lerp (Body.height (body parameters)) 1.74 2.08;
                       Three.z := 0 |};
  children :=
    match Hair.style (hair parameters) with
    | Hair.buzz => [buzz_mesh parameters]
    | _ => map (hair_layer_mesh parameters) (hairLayers (hair parameters))
    end |}.

End Builder.

(** *** The per-frame update ([useFrame]) *)

(** The rotation of the hair group. *)
Record Euler := { rx : float; ry : float; rz : float }.

(** The cloth's [PlaneGeometry]: the live position buffer (a
    [Float32Array]), the normal buffer, and the position attribute's
    [needsUpdate] flag. *)
Record ClothGeometry := {
  position_array : list float;
  normal_array : list float;
  needsUpdate : bool }.

(** What the frame callback can reach and mutate: [hairGroupRef.current]
    ([None] while the group is not mounted) and the cloth geometry. *)
Record Refs := { hairGroupRef : option Euler; clothGeometry : ClothGeometry }.

Section Animator.
Context `{JsRuntime} `{ThreeLib}.

Definition windAmplitude (parameters : AvatarParameters) : float :=
  (0.15 + Clothing.layering (clothing parameters) * 0.2)%float.
Definition hairFlex (parameters : AvatarParameters) : float :=
  (0.08 + Hair.length (hair parameters) * 0.18)%float.
Definition curliness (parameters : AvatarParameters) : float :=
  (0.4 + Hair.curl (hair parameters) * 0.9)%float.

Definition sway (elapsed : float) (parameters : AvatarParameters) (rotation : Euler) : Euler := {|
  rx := Math_cos (elapsed * 1.2) * (hairFlex parameters * 0.5);
  ry := ry rotation;
  rz := Math_sin (elapsed * (1.4 + curliness parameters)) * hairFlex parameters |}%float.

(** The value the loop body stores at [array[i + 2]]. *)
Definition cloth_z (elapsed : float) (parameters : AvatarParameters)
    (basePositions : list float) (i : nat) : float :=
  let baseX := Js.read basePositions i in
  let baseY := Js.read basePositions (i + 1) in
  let wave :=
    (Math_sin (baseY * 4 + elapsed * 2.1) * 0.02 +
     Math_cos (baseX * 4 + elapsed * 1.6) * 0.02)%float in
  let dynamicOffset :=
    (Math_sin (elapsed * 3 + baseX * 2.3) * windAmplitude parameters *
     (0.3 + Clothing.fabricSheen (clothing parameters)))%float in
  (Js.read basePositions (i + 2) + wave + dynamicOffset)%float.

(** The values [i] takes in [for (let i = 0; i < array.length; i += 3)]. *)
Definition loop_indices (len : nat) : list nat :=
  map (fun k => 3 * k) (seq 0 (Nat.div (len + 2) 3)).

(** The loop over the live buffer.  A store into a [Float32Array] rounds to
    single precision and is dropped when the index is past the end. *)
Definition wave_cloth (elapsed : float) (parameters : AvatarParameters)
    (basePositions array : list float) : list float :=
  foldl (fun array i =>
           <[i + 2 := Math_fround (cloth_z elapsed parameters basePositions i)]> array)
        array (loop_indices (List.length array)).

(** The loop of [wave_cloth] with the stored values abstracted to [f], over
    the indices [3 * s], [3 * (s + 1)], ..., [3 * (s + n - 1)]. *)
Definition writes {A : Type} (f : nat -> A) (s n : nat) (a : list A) : list A :=
  foldl (fun a i => <[i + 2 := f i]> a) a (map (fun k => 3 * k) (seq s n)).

(** Two live buffers of one length that hold the same x and y coordinates:
    they differ at most in the z entries (indices 2, 5, 8, ...). *)
Definition agree_off_z (a b : list float) : Prop :=
  List.length a = List.length b /\ forall j, j mod 3 <> 2 -> a !! j = b !! j.

(** The callback given to [useFrame], at [clock.getElapsedTime() = elapsed]. *)
Definition useFrame (elapsed : float) (parameters : AvatarParameters)
    (basePositions : list float) (refs : Refs) : Refs := {|
  hairGroupRef := sway elapsed parameters <$> hairGroupRef refs;
  clothGeometry :=
    match basePositions with
    | [] => clothGeometry refs
    | _ =>
      let array := wave_cloth elapsed parameters basePositions
                              (position_array (clothGeometry refs)) in
      {| position_array := array;
         normal_array := computeVertexNormals array;
         needsUpdate := true |}
    end |}.

(** The frame callback run at each [(elapsed, parameters)] of [history] in
    turn. *)
Definition frames (history : list (float * AvatarParameters)) (basePositions : list float)
    (refs : Refs) : Refs :=
  foldl (fun refs frame => useFrame (fst frame) (snd frame) basePositions refs) refs history.

End Animator.

(** [useClothGeometry]: the plane geometry, and [basePositions], a copy of
    its position array taken before any frame has run. *)
Definition useClothGeometry (plane : ClothGeometry) : ClothGeometry * list float :=
  (plane, position_array plane).

(** What the frame callback finds when the model has mounted with the hair
    group [hair] (or none) and the cloth [plane]. *)
Definition mounted (hair : option Euler) (plane : ClothGeometry) : Refs :=
  {| hairGroupRef := hair; clothGeometry := fst (useClothGeometry plane) |}.

(** What every frame keeps of the mounted state: whether there is a hair
    group and its rotation about y, and, of the cloth, the x and y entries
    of the live buffer (or, without rest positions, the whole geometry). *)
Definition as_mounted (hair : option Euler) (plane : ClothGeometry) (refs : Refs) : Prop :=
  ry <$> hairGroupRef refs = ry <$> hair
  /\ agree_off_z (position_array (clothGeometry refs)) (position_array plane)
  /\ (position_array plane = [] -> clothGeometry refs = plane).

End Scene.

(** ** [exporters.ts] *)

Module Exporters.

(** A [BufferGeometry]: its index, if it has one, and its [position] and
    [normal] attributes, if present, as the vertices they hold. *)
Record BufferGeometry := {
  index : option (list nat);
  position : option (list Three.Vector3);
  normal : option (list Three.Vector3) }.

Definition undefined_vector : Three.Vector3 :=
  {| Three.x := nan; Three.y := nan; Three.z := nan |}.

(** [attribute] read at vertex [i]; past the end every component is
    [undefined]. *)
Definition fromBufferAttribute (attribute : list Three.Vector3) (i : nat) : Three.Vector3 :=
  default undefined_vector (attribute !! i).

(** three.js [BufferGeometry.toNonIndexed]: the geometry itself when it has
    no index, and otherwise a geometry whose attributes hold one vertex
    per entry of the index. *)
Definition toNonIndexed (geometry : BufferGeometry) : BufferGeometry :=
  match index geometry with
  | None => geometry
  | Some indices =>
    let convert attribute := map (fromBufferAttribute attribute) indices in
    {| index := None;
       position := convert <$> position geometry;
       normal := convert <$> normal geometry |}
  end.

Record Streams := { vertices : list float; normals : list float }.

(** The two streams hold as many coordinates, three per vertex. *)
Definition parallel (out : Streams) : Prop :=
  List.length (vertices out) = List.length (normals out)
  /\ List.length (vertices out) mod 3 = 0.

(** Where a source line throws a [TypeError], the embedding returns [None]. *)

Section Flattener.
Context `{JsRuntime} `{ThreeLib}.

(** A node of the scene graph: whether it [isMesh], its [geometry], its
    local [matrix] and its [children]. *)
Inductive Object3D :=
  | Node (isMesh : bool) (geometry : option BufferGeometry) (matrix : Matrix4)
         (children : list Object3D).

Definition formatNumber (value : float) : float := parseFloat (toFixed6 value).

Definition push3 (a : list float) (v : Three.Vector3) : list float :=
  a ++ [formatNumber (Three.x v); formatNumber (Three.y v); formatNumber (Three.z v)].

(** One iteration of the loop over [positionAttribute.count]. *)
Definition push_vertex (worldMatrix : Matrix4) (positionAttribute : list Three.Vector3)
    (normalAttribute : option (list Three.Vector3)) (out : Streams) (i : nat) : Streams := {|
  vertices :=
    push3 (vertices out) (applyMatrix4 worldMatrix (fromBufferAttribute positionAttribute i));
  normals :=
    match normalAttribute with
    | Some attribute =>
      push3 (normals out)
            (normalize (applyMatrix3 (getNormalMatrix worldMatrix)
                                     (fromBufferAttribute attribute i)))
    | None => normals out ++ [0; 1; 0]%float
    end |}.

(** The callback of [root.traverse] at one node whose [matrixWorld] is
    [worldMatrix]. *)
Definition visit (worldMatrix : Matrix4) (isMesh : bool) (geometry : option BufferGeometry)
    (out : Streams) : option Streams :=
  if negb isMesh then Some out
  else match geometry with
       | None => Some out
       | Some geometry =>
         let tempGeometry := toNonIndexed geometry in
         match position tempGeometry with
         | None => None
         | Some positionAttribute =>
           Some (foldl (push_vertex worldMatrix positionAttribute (normal tempGeometry))
                       out (seq 0 (List.length positionAttribute)))
         end
       end.

(** [matrixWorld] as [updateWorldMatrix] sets it: the local matrix for a node
    without parent, else the parent's world matrix times the local one. *)
Definition matrixWorld (parent : option Matrix4) (matrix : Matrix4) : Matrix4 :=
  match parent with
  | None => matrix
  | Some parentWorld => multiplyMatrices parentWorld matrix
  end.

(** [traverse]: the node itself, then its children in order, depth first. *)
Fixpoint traverse (parent : option Matrix4) (object : Object3D) (out : Streams)
    : option Streams :=
  match object with
  | Node isMesh geometry matrix children =>
    let world := matrixWorld parent matrix in
    out ← visit world isMesh geometry out;
    (fix each (children : list Object3D) (out : Streams) : option Streams :=
       match children with
       | [] => Some out
       | child :: children => out ← traverse (Some world) child out; each children out
       end) children out
  end.


(** [collectMeshes(root)], for a root whose parent, if any, has world matrix
    [parent]. *)
Definition collectMeshes (parent : option Matrix4) (root : Object3D) : option Streams :=
  traverse parent root {| vertices := []; normals := [] |}.

End Flattener.

(** *** [exportAvatarAsFBX] *)

(** The polygon-index loop.  [vertexCount] and [polygonCount] are computed
    over the rationals; the binary64 quotients of the source agree with
    them for every array length below 2^52. *)
Definition vertexCount (vertices : list float) : Q :=
  inject_Z (Z.of_nat (List.length vertices)) / 3.

Definition polygonCount (vertices : list float) : Z := Qfloor (vertexCount vertices / 3).

Definition polygon (i : nat) : list Z :=
  let base := (Z.of_nat i * 3)%Z in [base; base + 1; - (base + 2 + 1)]%Z.

Definition polygonIndices (vertices : list float) : list Z :=
  foldl (fun polygonIndices i => polygonIndices ++ polygon i)
        [] (seq 0 (Z.to_nat (polygonCount vertices))).

(** The UTC fields of [new Date()] that the header prints. *)
Record Timestamp := {
  year : nat; month : nat; day : nat; hour : nat; minute : nat; second : nat;
  millisecond : nat }.

(** The values spliced into the fixed text of the FBX file, and the type of
    the [Blob] that holds it. *)
Record FbxFile := {
  CreationTimeStamp : Timestamp;
  Vertices_count : nat;
  Vertices : list float;
  PolygonVertexIndex_count : nat;
  PolygonVertexIndex : list Z;
  Normals_count : nat;
  Normals : list float;
  fbx_type : string }.

Definition fbx_of_streams (now : Timestamp) (s : Streams) : FbxFile :=
  let polygonIndices := polygonIndices (vertices s) in {|
  CreationTimeStamp := now;
  Vertices_count := List.length (vertices s);
  Vertices := vertices s;
  PolygonVertexIndex_count := List.length polygonIndices;
  PolygonVertexIndex := polygonIndices;
  Normals_count := List.length (normals s);
  Normals := normals s;
  fbx_type := "application/octet-stream" |}.

Section Fbx.
Context `{JsRuntime} `{ThreeLib}.

Definition exportAvatarAsFBX (now : Timestamp) (parent : option Matrix4) (group : Object3D)
    : option FbxFile :=
  fbx_of_streams now <$> collectMeshes parent group.

End Fbx.

(** *** [exportAvatarAsGLTF] *)








Section Gltf.
Context `{JsRuntime} `{ThreeLib}.








End Gltf.

End Exporters.

(** ** Reading one parameter

    [parameters[section][key]], the expression the page's controls and the
    scene read a field with, for the sections and keys [setParameter]
    takes. *)

Module Lookup.
Import Store.

Definition facial (k : Facial.key) (c : Facial.t) : Facial.field k :=
  match k with
  | Facial.EyeSpacing => Facial.eyeSpacing c
  | Facial.EyeSize => Facial.eyeSize c
  | Facial.NoseWidth => Facial.noseWidth c
  | Facial.NoseLength => Facial.noseLength c
  | Facial.LipFullness => Facial.lipFullness c
  | Facial.EarSize => Facial.earSize c
  end.

Definition head (k : Head.key) (c : Head.t) : Head.field k :=
  match k with
  | Head.HeadHeight => Head.headHeight c
  | Head.HeadWidth => Head.headWidth c
  | Head.ChinDefinition => Head.chinDefinition c
  | Head.JawWidth => Head.jawWidth c
  | Head.NeckThickness => Head.neckThickness c
  end.

Definition skin (k : Skin.key) (c : Skin.t) : Skin.field k :=
  match k with
  | Skin.Tone => Skin.tone c
  | Skin.Roughness => Skin.roughness c
  | Skin.Sheen => Skin.sheen c
  | Skin.Subsurface => Skin.subsurface c
  | Skin.Freckles => Skin.freckles c
  end.

Definition hair (k : Hair.key) (c : Hair.t) : Hair.field k :=
  match k with
  | Hair.KStyle => Hair.style c
  | Hair.Color => Hair.color c
  | Hair.SecondaryColor => Hair.secondaryColor c
  | Hair.Length => Hair.length c
  | Hair.Curl => Hair.curl c
  | Hair.Volume => Hair.volume c
  end.

Definition body (k : Body.key) (c : Body.t) : Body.field k :=
  match k with
  | Body.Height => Body.height c
  | Body.Weight => Body.weight c
  | Body.Muscle => Body.muscle c
  | Body.Posture => Body.posture c
  | Body.ShoulderWidth => Body.shoulderWidth c
  end.

Definition clothing (k : Clothing.key) (c : Clothing.t) : Clothing.field k :=
  match k with
  | Clothing.KOutfit => Clothing.outfit c
  | Clothing.PrimaryColor => Clothing.primaryColor c
  | Clothing.SecondaryColor => Clothing.secondaryColor c
  | Clothing.FabricSheen => Clothing.fabricSheen c
  | Clothing.Layering => Clothing.layering c
  end.

(** A section and one of its keys: the first two arguments of
    [setParameter]. *)
Variant Path :=
  | InFacial (k : Facial.key)
  | InHead (k : Head.key)
  | InSkin (k : Skin.key)
  | InHair (k : Hair.key)
  | InBody (k : Body.key)
  | InClothing (k : Clothing.key).

Definition path (e : ParameterEdit) : Path :=
  match e with
  | EditFacial k _ => InFacial k
  | EditHead k _ => InHead k
  | EditSkin k _ => InSkin k
  | EditHair k _ => InHair k
  | EditBody k _ => InBody k
  | EditClothing k _ => InClothing k
  end.

(** The value [parameters] holds at a path, with the path: the arguments
    with which [setParameter] would write that value there. *)
Definition entry (at_path : Path) (parameters : AvatarParameters) : ParameterEdit :=
  match at_path with
  | InFacial k => EditFacial k (facial k (Store.facial parameters))
  | InHead k => EditHead k (head k (Store.head parameters))
  | InSkin k => EditSkin k (skin k (Store.skin parameters))
  | InHair k => EditHair k (hair k (Store.hair parameters))
  | InBody k => EditBody k (body k (Store.body parameters))
  | InClothing k => EditClothing k (clothing k (Store.clothing parameters))
  end.

End Lookup.

(** ** The timers of one generation *)

Module Schedule.
Import Store.

(** The milliseconds each step of [generateAvatar] waits, with the value
    its callback sets. *)
Definition table : list (Z * float) :=
  imap (fun index value => (Js.timeout_ms (step_delay index), value)) steps.

End Schedule.

(** ** The page component: saved profiles and uploads *)

Module Page.
Import Store.

(** The object the restore effect gets from [JSON.parse]: each of its three
    keys is present or missing. *)
Module Profile.
Record t := {
  parameters : option AvatarParameters;
  uploadedImages : option (list UploadedImage.t);
  savedAt : option string }.
End Profile.

(** The body of the restore effect once [JSON.parse] has returned [parsed].
    An object and an array are truthy; of the strings, the non-empty ones. *)
Definition restore (parsed : Profile.t) (state : AvatarState) : AvatarState :=
  let state :=
    match Profile.parameters parsed with
    | Some parameters => setParameters parameters state
    | None => state
    end in
  let state :=
    match Profile.uploadedImages parsed with
    | Some images => foldl (fun state image => addUpload image state) state images
    | None => state
    end in
  match Profile.savedAt parsed with
  | Some iso => if String.eqb iso "" then state else markSaved iso state
  | None => state
  end.


(** A [File] of the upload list, with what its [FileReader] reads from it. *)
Record File := { file_name : string; file_size : float; result : string }.

(** [Array.from(files).slice(0, Math.max(0, 5 - currentCount))] *)
Definition queue (currentCount : nat) (files : list File) : list File :=
  take (Z.to_nat (Z.max 0 (5 - Z.of_nat currentCount))) files.

(** The [onload] handler of a file's reader, with the [uid] it draws. *)
Definition onload (file : File) (uid : string) : AvatarState -> AvatarState :=
  addUpload {| UploadedImage.id := file_name file ++ "-" ++ uid;
               UploadedImage.name := file_name file;
               UploadedImage.src := result file;
               UploadedImage.size := file_size file |}.

(** [handleUpload(files)], as rendered with the store at [state]: the files
    it starts a reader for. *)
Definition handleUpload (files : list File) (state : AvatarState) : list File :=
  queue (List.length (uploadedImages state)) files.

(** The readers' [load] events, each a file with the uid drawn for it, in
    the order they arrive. *)
Definition loaded (arrivals : list (File * string)) (state : AvatarState) : AvatarState :=
  foldl (fun state arrival => onload (fst arrival) (snd arrival) state) state arrivals.

End Page.

(** ** What a scene graph hands to the exporters *)

Module Census.
Import Exporters.

Definition no_streams : Streams := {| vertices := []; normals := [] |}.

(** [a] with the coordinates of [b] behind it. *)
Definition append (a b : Streams) : Streams :=
  {| vertices := vertices a ++ vertices b; normals := normals a ++ normals b |}.

(** The vertex an entry of [PolygonVertexIndex] refers to: the writer
    stores the last vertex [k] of a polygon as [-(k + 1)]. *)
Definition referenced (entry : Z) : Z := if (entry <? 0)%Z then (- entry - 1)%Z else entry.

Section Graph.
Context `{JsRuntime} `{ThreeLib}.

(** The three numbers pushed for a vector. *)
Definition coordinates (v : Three.Vector3) : list float :=
  [formatNumber (Three.x v); formatNumber (Three.y v); formatNumber (Three.z v)].

(** [positionAttribute.count] at a node: the number of iterations of the
    callback's loop there, none when the callback returns early. *)
Definition count (isMesh : bool) (geometry : option BufferGeometry) : nat :=
  if isMesh
  then from_option (fun g => from_option (@List.length _) 0 (position (toNonIndexed g)))
                   0 geometry
  else 0.

(** The loop iterations of a whole traversal. *)
Fixpoint emitted (object : Object3D) : nat :=
  match object with
  | Node isMesh geometry _ children => count isMesh geometry + list_sum (map emitted children)
  end.

(** No node is a mesh. *)
Fixpoint meshless (object : Object3D) : bool :=
  match object with
  | Node isMesh _ _ children => negb isMesh && forallb meshless children
  end.

(** No geometry has a [normal] attribute. *)
Fixpoint without_normals (object : Object3D) : bool :=
  match object with
  | Node _ geometry _ children =>
    from_option (fun g => bool_decide (normal g = None)) true geometry
    && forallb without_normals children
  end.

End Graph.
End Census.

(** ** [AvatarModel]: the whole scene graph *)

Module Model.
Import Store.

(** [Math.PI] *)
Definition Math_PI : float := 3.141592653589793.

Class ColorLib := {
  (** [color.offsetHSL(h, s, l)] *)
  offsetHSL : Three.Color -> float -> float -> float -> Three.Color }.

(** A colour prop: a CSS string, or a [Color] object. *)
Variant ColorProp := Style (style : string) | Object (color : Three.Color).

(** The properties of a [MeshPhysicalMaterial] the model sets; one that is
    not set is [None] ([false] for the flag [transparent]). *)
Record MeshPhysicalMaterial := {
  color : option ColorProp;
  roughness : option float;
  metalness : option float;
  reflectivity : option float;
  clearcoat : option float;
  clearcoatRoughness : option float;
  sheen : option float;
  sheenColor : option Three.Color;
  transmission : option float;
  transparent : bool;
  opacity : option float }.

(** The material child of a [<mesh>]: [<primitive object={...}>] attaches an
    object made elsewhere, [<meshPhysicalMaterial .../>] makes one for this
    mesh. *)
Variant Material :=
  | primitive (object : MeshPhysicalMaterial)
  | meshPhysicalMaterial (props : MeshPhysicalMaterial).

(** The geometry of a [<mesh>]: a geometry element with its [args], or the
    [geometry] prop, which is only ever given the cloth. *)
Variant Geometry :=
  | capsuleGeometry (args : list float)
  | sphereGeometry (args : list float)
  | cylinderGeometry (args : list float)
  | clothGeometry.

Record Mesh := {
  position : option Three.Vector3;
  rotation : option Three.Vector3;
  scale : option Three.Vector3;
  castShadow : bool;
  receiveShadow : bool;
  geometry : Geometry;
  material : Material }.

(** A JSX element of the model.  [hairGroup] is the group that carries
    [hairGroupRef].  What is no part of the scene graph (the refs, the
    React keys and the [dispose] prop of the root) is left out. *)
Inductive Element :=
  | group (position : option Three.Vector3) (children : list Element)
  | mesh (props : Mesh)
  | hairGroup (hair : Scene.HairGroup)
  | Float (floatingRange : float * float) (rotationIntensity speed : float)
          (children : list Element).

Definition vector (x y z : float) : Three.Vector3 :=
  {| Three.x := x; Three.y := y; Three.z := z |}.

(** The number of [<mesh>] elements under an element. *)
Fixpoint meshCount (e : Element) : nat :=
  match e with
  | group _ children | Float _ _ _ children => list_sum (map meshCount children)
  | mesh _ => 1
  | hairGroup hair => List.length (Scene.children hair)
  end.

(** The material objects attached by [<primitive>] under an element, in
    document order. *)
Fixpoint primitives (e : Element) : list MeshPhysicalMaterial :=
  match e with
  | group _ children | Float _ _ _ children => flat_map primitives children
  | mesh props => match material props with primitive object => [object] | _ => [] end
  | hairGroup _ => []
  end.

Section AvatarModel.
Context `{ThreeLib} `{ColorLib}.

Definition skinMaterial (parameters : AvatarParameters) : MeshPhysicalMaterial := {|
  color := Some (Object (Color_of_string (Skin.tone (skin parameters))));
  roughness := Some (Skin.roughness (skin parameters));
  metalness := Some 0.02%float;
  reflectivity := Some 0.45%float;
  clearcoat := Some (Skin.sheen (skin parameters) * 0.6)%float;
  clearcoatRoughness := Some 0.3%float;
  sheen := Some (Skin.sheen (skin parameters));
  sheenColor :=
    Some (offsetHSL (Color_of_string (Skin.tone (skin parameters))) 0 (-0.05) 0.1);
  transmission := Some (Skin.subsurface (skin parameters) * 0.15)%float;
  transparent := false;
  opacity := None |}.

Definition headScale (parameters : AvatarParameters) : Three.Vector3 :=
  vector (Scene.lerp (Head.headWidth (head parameters)) 0.9 1.2)
         (Scene.lerp (Head.headHeight (head parameters)) 0.9 1.3)
         (Scene.lerp (Head.chinDefinition (head parameters)) 0.9 1.1).

(** The group of the torso capsule. *)
Definition torso (parameters : AvatarParameters) : Element :=
  group (Some (vector 0 (Scene.lerp (Body.height (body parameters)) 1.4 1.9) 0))
    [ mesh {|
        position := Some (vector 0 0.35 0);
        rotation := None;
        scale := Some (vector 1 1.4 0.8);
        castShadow := true;
        receiveShadow := false;
        geometry :=
          capsuleGeometry [0.38; Scene.lerp (Body.height (body parameters)) 1.1 1.6]%float;
        material := meshPhysicalMaterial {|
          color := Some (Style (Clothing.primaryColor (clothing parameters)));
          roughness := Some (Scene.lerp (Clothing.fabricSheen (clothing parameters)) 0.5 0.9);
          metalness := Some 0.05%float;
          reflectivity := None;
          clearcoat := Some (Clothing.fabricSheen (clothing parameters) * 0.6)%float;
          clearcoatRoughness := None;
          sheen := Some (Clothing.fabricSheen (clothing parameters) * 0.8)%float;
          sheenColor := Some (Color_of_string (Clothing.secondaryColor (clothing parameters)));
          transmission := None;
          transparent := false;
          opacity := None |} |} ].

(** The head sphere. *)
Definition skull (parameters : AvatarParameters) : Element :=
  mesh {|
    position := Some (vector 0 (Scene.lerp (Body.height (body parameters)) 1.5 1.9) 0);
    rotation := None;
    scale := Some (headScale parameters);
    castShadow := true;
    receiveShadow := false;
    geometry := sphereGeometry [0.4; 64; 64]%float;
    material := primitive (skinMaterial parameters) |}.

(** An eye, [x] to the side. *)
Definition eye (parameters : AvatarParameters) (x : float) : Element :=
  mesh {|
    position := Some (vector x 0.03 0.36);
    rotation := None;
    scale := None;
    castShadow := false;
    receiveShadow := false;
    geometry :=
      sphereGeometry [Scene.lerp (Facial.eyeSize (facial parameters)) 0.06 0.09; 32; 32]%float;
    material := meshPhysicalMaterial {|
      color := Some (Style "#1c1f25");
      roughness := Some 0.18%float;
      metalness := None;
      reflectivity := Some 0.95%float;
      clearcoat := Some 0.9%float;
      clearcoatRoughness := None;
      sheen := None;
      sheenColor := None;
      transmission := Some 0.12%float;
      transparent := false;
      opacity := None |} |}.

Definition nose (parameters : AvatarParameters) : Element :=
  mesh {|
    position := Some (vector 0 (-0.02) 0.42);
    rotation := Some (vector (Math_PI * 0.5) 0 0);
    scale := None;
    castShadow := false;
    receiveShadow := false;
    geometry :=
      cylinderGeometry
        [ Scene.lerp (Facial.noseWidth (facial parameters)) 0.05 0.12;
          Scene.lerp (Facial.noseWidth (facial parameters)) 0.03 0.08;
          Scene.lerp (Facial.noseLength (facial parameters)) 0.28 0.42;
          32 ]%float;
    material := primitive (skinMaterial parameters) |}.

Definition mouth (parameters : AvatarParameters) : Element :=
  mesh {|
    position := Some (vector 0 (-0.18) 0.33);
    rotation := Some (vector 0 0 0);
    scale := None;
    castShadow := false;
    receiveShadow := false;
    geometry :=
      capsuleGeometry
        [ Scene.lerp (Facial.lipFullness (facial parameters)) 0.04 0.09;
          Scene.lerp (Facial.lipFullness (facial parameters)) 0.12 0.25 ];
    material := meshPhysicalMaterial {|
      color := Some (Object (offsetHSL (Color_of_string (Skin.tone (skin parameters)))
                                       0.03 0.12 0.05));
      roughness := Some 0.3%float;
      metalness := None;
      reflectivity := None;
      clearcoat := Some 0.4%float;
      clearcoatRoughness := None;
      sheen := Some 0.4%float;
      sheenColor := None;
      transmission := None;
      transparent := false;
      opacity := None |} |}.

(** An ear, [x] to the side and turned by [turn] about the y axis. *)
Definition ear (parameters : AvatarParameters) (x turn : float) : Element :=
  mesh {|
    position := Some (vector x 0.05 0);
    rotation := Some (vector 0 turn 0);
    scale := None;
    castShadow := false;
    receiveShadow := false;
    geometry :=
      sphereGeometry
        [Scene.lerp (Facial.earSize (facial parameters)) 0.1 0.16; 32; 32; 0; Math_PI]%float;
    material := primitive (skinMaterial parameters) |}.

(** The group of the eyes, nose, mouth and ears. *)
Definition face (parameters : AvatarParameters) : Element :=
  group (Some (vector 0 (Scene.lerp (Body.height (body parameters)) 1.65 2.0) 0))
    [ eye parameters (- Scene.lerp (Facial.eyeSpacing (facial parameters)) 0.16 0.24);
      eye parameters (Scene.lerp (Facial.eyeSpacing (facial parameters)) 0.16 0.24);
      nose parameters;
      mouth parameters;
      ear parameters (-0.4) (Math_PI * 0.6);
      ear parameters 0.4 (- Math_PI * 0.6) ]%float.

(** The [<Float>] that carries the cloth. *)
Definition cloth (parameters : AvatarParameters) : Element :=
  Float (0.02, 0.06)%float 0.2 (1.2 + Hair.volume (hair parameters) * 0.5)%float
    [ mesh {|
        position := Some (vector 0 (Scene.lerp (Body.height (body parameters)) 1.1 1.35) 0);
        rotation := Some (vector (- Math_PI / 2) 0 0);
        scale := None;
        castShadow := true;
        receiveShadow := true;
        geometry := clothGeometry;
        material := meshPhysicalMaterial {|
          color := Some (Style (Clothing.secondaryColor (clothing parameters)));
          roughness := Some (Scene.lerp (Clothing.fabricSheen (clothing parameters)) 0.25 0.7);
          metalness := Some 0.1%float;
          reflectivity := None;
          clearcoat := Some 0.6%float;
          clearcoatRoughness := None;
          sheen := Some 0.6%float;
          sheenColor := Some (Color_of_string (Clothing.primaryColor (clothing parameters)));
          transmission := None;
          transparent := true;
          opacity := Some 0.95%float |} |} ].

(** The element [AvatarModel] returns. *)
Definition AvatarModel (parameters : AvatarParameters) : Element :=
  group (Some (vector 0 (-0.6 + Body.posture (body parameters) * 0.1) 0))
    [ torso parameters;
      skull parameters;
      face parameters;
      hairGroup (Scene.hairGroup parameters);
      cloth parameters ]%float.

End AvatarModel.

(** The paths neither [AvatarModel] nor its frame callback reads. *)
Definition unread : list Lookup.Path :=
  [ Lookup.InHead Head.JawWidth; Lookup.InHead Head.NeckThickness;
    Lookup.InSkin Skin.Freckles; Lookup.InBody Body.Weight; Lookup.InBody Body.Muscle;
    Lookup.InBody Body.ShoulderWidth; Lookup.InClothing Clothing.KOutfit ].

End Model.

(** ** Closed instances and inputs for examples

    Stand-ins for the runtime and for three.js, so that statements about the
    model can be evaluated on concrete inputs.  Nothing below is the real
    [Math.sin] or the real matrix algebra. *)

Module Sample.

(** A generation started at time 0 and interrupted at 1200 ms by
    [resetParameters]. *)
Definition interrupted : Store.Runtime :=
  Store.dispatch Store.resetParameters
    (Store.elapse 1200
       (Store.generateAvatar
          {| Store.store := Store.initialState; Store.clock := 0; Store.timers := [] |})).

Definition runtime : JsRuntime := {|
  Math_sin := fun x => x;
  Math_cos := fun x => (1 - x)%float;
  Math_fround := fun x => x;
  toFixed6 := fun _ => "0.000000"%string;
  parseFloat := fun _ => 0%float;
  JsObject := unit;
  JSON_stringify2 := fun _ => "{}"%string |}.

Definition three : ThreeLib := {|
  Color_of_string := fun _ => {| Three.r := 0.25; Three.g := 0.5; Three.b := 0.75 |}%float;
  computeVertexNormals := fun a => a;
  Matrix4 := unit;
  Matrix3 := unit;
  multiplyMatrices := fun _ _ => tt;
  applyMatrix4 := fun _ v => v;
  getNormalMatrix := fun _ => tt;
  applyMatrix3 := fun _ v => v;
  normalize := fun v => v |}.

Definition corner (x y : float) : Three.Vector3 :=
  {| Three.x := x; Three.y := y; Three.z := 0 |}.

(** One triangle, stored with an index. *)
Definition triangle : Exporters.BufferGeometry := {|
  Exporters.index := Some [0; 1; 2];
  Exporters.position := Some [corner 0 0; corner 1 0; corner 0 1];
  Exporters.normal := None |}.


(** A group holding one mesh, the triangle. *)
Definition scene : @Exporters.Object3D three :=
  @Exporters.Node three false None tt [@Exporters.Node three true (Some triangle) tt []].

(** A cloth of two vertices, as mounted, and its rest positions. *)
Definition rest : list float := [0; 0; 0; 1; 0; 0]%float.

Definition refs : Scene.Refs := {|
  Scene.hairGroupRef := Some {| Scene.rx := 0; Scene.ry := 0; Scene.rz := 0 |}%float;
  Scene.clothGeometry := {| Scene.position_array := rest; Scene.normal_array := [];
                            Scene.needsUpdate := false |} |}.

Definition now : Exporters.Timestamp := {|
  Exporters.year := 2025; Exporters.month := 1; Exporters.day := 1; Exporters.hour := 0;
  Exporters.minute := 0; Exporters.second := 0; Exporters.millisecond := 0 |}.

End Sample.

(** ** Further inputs for examples *)

Module Example.

(** A stand-in for [Color.offsetHSL]. *)
Definition colors : Model.ColorLib := {| Model.offsetHSL := fun color _ _ _ => color |}.

Definition portrait : Store.UploadedImage.t := {|
  Store.UploadedImage.id := "face.png-1";
  Store.UploadedImage.name := "face.png";
  Store.UploadedImage.src := "data:image/png;base64,AAAA";
  Store.UploadedImage.size := 2048 |}.

Definition profile_shot : Store.UploadedImage.t := {|
  Store.UploadedImage.id := "side.png-2";
  Store.UploadedImage.name := "side.png";
  Store.UploadedImage.src := "data:image/png;base64,BBBB";
  Store.UploadedImage.size := 4096 |}.

(** A store with four uploads. *)
Definition crowded : Store.AvatarState :=
  foldl (fun state image => Store.addUpload image state) Store.initialState
        [portrait; profile_shot; portrait; profile_shot].

Definition front : Page.File :=
  {| Page.file_name := "front.png"; Page.file_size := 1024;
     Page.result := "data:image/png;base64,CCCC" |}.

Definition back : Page.File :=
  {| Page.file_name := "back.png"; Page.file_size := 512;
     Page.result := "data:image/png;base64,DDDD" |}.

(** A group without children. *)
Definition empty_group : @Exporters.Object3D Sample.three :=
  @Exporters.Node Sample.three false None tt [].

End Example.

(** * Properties *)

(** ** Binary64 facts *)

Lemma is_nan_spec (x : float) : is_nan x = false -> Prim2SF x <> S754_nan.
Proof.
  unfold is_nan. rewrite FloatAxioms.eqb_spec. intros Hx Hnan.
  rewrite Hnan in Hx. discriminate.
Qed.

Lemma is_finite_spec (x : float) :
  is_finite x = true ->
  exists s, Prim2SF x = S754_zero s \/ exists m e, Prim2SF x = S754_finite s m e.
Proof.
  unfold is_finite, is_nan, is_infinity.
  rewrite !FloatAxioms.eqb_spec, abs_spec.
  change (Prim2SF infinity) with (S754_infinity false).
  destruct (Prim2SF x) as [s| s | |s m e]; cbn; intros Hfin.
  - eauto.
  - destruct s; discriminate.
  - discriminate.
  - eauto 6.
Qed.

(** [x + d * 0 === x] for a number [x] and a finite [d]: the product is a
    zero, and adding a zero changes no number (it may turn [-0] into [+0],
    which [===] does not tell apart). *)
Lemma add_mul_zero (x d : float) :
  is_nan x = false -> is_finite d = true -> (x + d * 0 =? x)%float = true.
Proof.
  intros Hx Hd. apply is_nan_spec in Hx. apply is_finite_spec in Hd.
  rewrite FloatAxioms.eqb_spec, add_spec, mul_spec.
  change (Prim2SF 0) with (S754_zero false).
  assert (Hz : exists s, SF64mul (Prim2SF d) (S754_zero false) = S754_zero s).
  { destruct Hd as [s [-> | (m & e & ->)]]; cbn; eauto. }
  destruct Hz as [s ->].
  destruct (Prim2SF x) as [sx| sx | |sx m e] eqn:E; cbn.
  - now destruct sx, s.
  - now destruct sx.
  - congruence.
  - rewrite Z.compare_refl, Pos.compare_refl. now destruct sx.
Qed.

(** ** The store *)

Section StoreProperties.
Import Store.

(** [set] with a partial that does not name [generationProgress] leaves it
    alone. *)
Lemma set_frame (f : AvatarState -> Partial) (state : AvatarState) :
  generationProgress' (f state) = None ->
  generationProgress (set f state) = generationProgress state.
Proof. intros Hnone. unfold set. cbn. now rewrite Hnone. Qed.

(** C6: a single-field edit ([setParameter]) made while the status is
    [ready] sets the status to [idle]; made while the status is [idle] or
    [processing] it leaves the status as it is; in every case
    [generationProgress] keeps its value, and the parameters become the
    edited ones. *)
Theorem setParameter_status (e : ParameterEdit) (state : AvatarState) :
  status (setParameter e state)
    = match status state with ready => idle | idle => idle | processing => processing end
  /\ generationProgress (setParameter e state) = generationProgress state
  /\ parameters (setParameter e state) = edit_parameters e (parameters state).
Proof.
  split; [|split].
  - unfold setParameter, set; cbn. now destruct (status state).
  - now apply set_frame.
  - reflexivity.
Qed.

(** C10: replacing the whole parameter set, by [setParameters params] or by
    [resetParameters], sets the status to [idle] whatever it was, also
    when it was [processing] (where [setParameter] keeps [processing]), and
    leaves [generationProgress] as it was. *)
Theorem replace_parameters_status (params : AvatarParameters) (e : ParameterEdit)
    (state : AvatarState) :
  (status (setParameters params state) = idle
   /\ generationProgress (setParameters params state) = generationProgress state
   /\ parameters (setParameters params state) = params)
  /\ (status (resetParameters state) = idle
      /\ generationProgress (resetParameters state) = generationProgress state
      /\ parameters (resetParameters state) = defaultParameters)
  /\ (let busy := setStatus processing state in
      status busy = processing
      /\ status (setParameters params busy) = idle
      /\ status (resetParameters busy) = idle
      /\ status (setParameter e busy) = processing).
Proof.
  repeat split; try reflexivity; now apply set_frame.
Qed.

Lemma ltb_shift (c a b : Z) : (c + a <? c + b)%Z = (a <? b)%Z.
Proof. destruct (Z.ltb_spec a b); [apply Z.ltb_lt|apply Z.ltb_ge]; lia. Qed.

(** The delays of the seven steps, as [setTimeout] counts them. *)
Lemma step_delays :
  map (fun index => Js.timeout_ms (step_delay index)) (seq 0 (List.length steps))
  = [0; 500; 1000; 1500; 2000; 2500; 3000]%Z.
Proof. vm_compute. reflexivity. Qed.

(** What a step's callback does to any store. *)
Lemma step_callback_effect (value : float) (state : AvatarState) :
  generationProgress (step_callback value state) = value
  /\ status (step_callback value state)
     = (if (100 <=? value)%float then ready else status state)
  /\ parameters (step_callback value state) = parameters state.
Proof. repeat split. Qed.

(** The timers a call registers, behind those already pending. *)
Lemma generateAvatar_timers (state : AvatarState) (now : Z) (pending : list Timer) :
  status state <> processing ->
  timers (generateAvatar {| store := state; clock := now; timers := pending |})
  = pending
    ++ map (fun '(delay, value) => {| due := now + delay; callback := step_callback value |})
           [ (0, 0%float); (500, 18%float); (1000, 37%float); (1500, 58%float);
             (2000, 76%float); (2500, 92%float); (3000, 100%float) ]%Z.
Proof.
  intros Hstatus. unfold generateAvatar. cbn [store status].
  destruct (status state); [|congruence|].
  all: cbn -[Js.timeout_ms step_delay step_callback Z.add];
    rewrite <- !app_assoc; reflexivity.
Qed.

(** C5, as the code has it.  [generateAvatar] called while the status is
    [processing] changes nothing: store, clock and pending timers are as
    before.  Called otherwise, it sets the status to [processing] and the
    progress to 0 and registers, behind the timers already pending, seven
    timers due 0, 500, ..., 3000 ms from now, whose callbacks set the
    progress to 0, 18, 37, 58, 76, 92, 100; the last one sets the status to
    [ready], the others leave the status alone.  When no timer was pending,
    the store therefore goes through progress 0, 18, ..., 92 with status
    [processing] and reaches progress 100 with status [ready] at 3000 ms. *)
Theorem generateAvatar_timeline (state : AvatarState) (now : Z) (pending : list Timer) :
  match status state with
  | processing =>
    generateAvatar {| store := state; clock := now; timers := pending |}
      = {| store := state; clock := now; timers := pending |}
  | _ =>
    let r := generateAvatar {| store := state; clock := now; timers := pending |} in
    let fresh := generateAvatar {| store := state; clock := now; timers := [] |} in
    status (store r) = processing
    /\ generationProgress (store r) = 0%float
    /\ parameters (store r) = parameters state
    /\ timers r
       = pending
         ++ map (fun '(delay, value) =>
                   {| due := now + delay; callback := step_callback value |})
                [ (0, 0%float); (500, 18%float); (1000, 37%float); (1500, 58%float);
                  (2000, 76%float); (2500, 92%float); (3000, 100%float) ]%Z
    /\ (forall value before,
          generationProgress (step_callback value before) = value
          /\ status (step_callback value before)
             = if (100 <=? value)%float then ready else status before)
    /\ observe (timeline fresh)
       = [ (now + 0, processing, 0%float); (now + 500, processing, 18%float);
           (now + 1000, processing, 37%float); (now + 1500, processing, 58%float);
           (now + 2000, processing, 76%float); (now + 2500, processing, 92%float);
           (now + 3000, ready, 100%float) ]%Z
  end.
Proof.
  destruct (status state) eqn:Hstatus.
  2: { unfold generateAvatar. cbn [store]. now rewrite Hstatus. }
  all: assert (Hne : status state <> processing) by congruence.
  all: cbv zeta; split; [unfold generateAvatar; cbn [store]; now rewrite Hstatus|].
  all: split; [unfold generateAvatar; cbn [store]; now rewrite Hstatus|].
  all: split; [unfold generateAvatar; cbn [store]; now rewrite Hstatus|].
  all: split; [now apply generateAvatar_timers|].
  all: split; [intros value before; split; reflexivity|].
  all: unfold timeline; rewrite (generateAvatar_timers state now [] Hne).
  all: unfold generateAvatar; cbn [store]; rewrite Hstatus.
  all: cbn [app map firing_order foldl enqueue due];
    repeat (rewrite ltb_shift; cbn [Z.ltb Z.compare Pos.compare Pos.compare_cont enqueue due]).
  all: reflexivity.
Qed.

(** C5 as stated fails when timers of an interrupted generation are still
    pending.  Start a generation at time 0; at 1200 ms, with progress 37,
    [resetParameters] puts the status back to [idle]; [generateAvatar] is
    called again.  The callbacks of the first call, never cancelled, run
    between those of the second: the progress goes 0, 58, 18, 76, 37, 92,
    58, 100, 76, 92, 100, and the status is [ready] from 3000 ms on, 1800 ms
    after the second call, while the progress is back at 76. *)
Lemma generateAvatar_interleaves :
  status (store Sample.interrupted) = idle
  /\ observe (timeline (generateAvatar Sample.interrupted))
     = [ (1200, processing, 0%float); (1500, processing, 58%float);
         (1700, processing, 18%float); (2000, processing, 76%float);
         (2200, processing, 37%float); (2500, processing, 92%float);
         (2700, processing, 58%float); (3000, ready, 100%float);
         (3200, ready, 76%float); (3700, ready, 92%float); (4200, ready, 100%float) ]%Z
  /\ Js.nondecreasing
       (map snd (observe (timeline (generateAvatar Sample.interrupted)))) = false.
Proof. repeat split; vm_compute; reflexivity. Qed.

End StoreProperties.

(** ** The scene builder *)

Section LerpProperties.
Import Scene.









End LerpProperties.

Section HairProperties.
Import Store Scene.
Context `{ThreeLib}.

Lemma Color_lerp_zero (this color : Three.Color) :
  Three.blendable this color = true ->
  Three.Color_eqb (Three.Color_lerp this color 0) this = true.
Proof.
  unfold Three.blendable, Three.Color_eqb. rewrite !andb_true_iff, !negb_true_iff.
  intros [[[[[Hr Hg] Hb] Dr] Dg] Db]. cbn.
  now rewrite !add_mul_zero.
Qed.

Lemma hairLayers_offsets (hair : Hair.t) :
  map offset (hairLayers hair)
  = [0; 0.16666666666666666; 0.3333333333333333; 0.5; 0.6666666666666666;
     0.8333333333333334]%float.
Proof. reflexivity. Qed.

Lemma hairLayers_factors (hair : Hair.t) :
  map blend_factor (hairLayers hair)
  = [0; 0.09999999999999999; 0.19999999999999998; 0.3; 0.39999999999999997; 0.5]%float.
Proof. reflexivity. Qed.

Lemma hairLayers_rising (hair : Hair.t) : StronglySorted rising (hairLayers hair).
Proof.
  unfold hairLayers, layers. cbn [seq map].
  repeat (constructor; [|repeat constructor; reflexivity]). constructor.
Qed.

Lemma hairGroup_layered (parameters : AvatarParameters) :
  Hair.style (hair parameters) <> Hair.buzz ->
  children (hairGroup parameters)
  = map (hair_layer_mesh parameters) (hairLayers (hair parameters)).
Proof.
  intros Hstyle. unfold hairGroup; cbn [children].
  now destruct (Hair.style (hair parameters)).
Qed.

(** C2, as the code has it: for a hair style other than [buzz] the colours
    of the six hair meshes are the blends [hairHue.lerp(secondary, f)] of
    the primary toward the secondary colour, with the factors [f = offset *
    0.6] of the six layers; offsets and factors both rise strictly from
    layer to layer; the factor of layer 0 is 0, which leaves the primary
    colour as it is; the factor of the top layer is 0.5. *)
Theorem hair_layer_colors (parameters : AvatarParameters) :
  Hair.style (hair parameters) <> Hair.buzz ->
  let layers := hairLayers (hair parameters) in
  map (fun mesh => color (material mesh)) (children (hairGroup parameters))
    = map (fun layer => Three.Color_lerp (hairHue parameters) (secondaryHairColor parameters)
                                         (blend_factor layer)) layers
  /\ map offset layers
     = [0; 0.16666666666666666; 0.3333333333333333; 0.5; 0.6666666666666666;
        0.8333333333333334]%float
  /\ map blend_factor layers
     = [0; 0.09999999999999999; 0.19999999999999998; 0.3; 0.39999999999999997; 0.5]%float
  /\ StronglySorted rising layers
  /\ (Three.blendable (hairHue parameters) (secondaryHairColor parameters) = true ->
      exists first rest,
        children (hairGroup parameters) = first :: rest
        /\ Three.Color_eqb (color (material first)) (hairHue parameters) = true).
Proof.
  intros Hstyle layers.
  pose proof (hairGroup_layered parameters Hstyle) as Hchildren. fold layers in Hchildren.
  split; [|split; [|split; [|split]]].
  - rewrite Hchildren, map_map. reflexivity.
  - apply hairLayers_offsets.
  - apply hairLayers_factors.
  - apply hairLayers_rising.
  - intros Hblend. rewrite Hchildren. subst layers. unfold hairLayers, Scene.layers.
    cbn [seq map]. eexists _, _. split; [reflexivity|].
    cbn [material hair_layer_mesh color].
    change (blend_factor _) with 0%float. now apply Color_lerp_zero.
Qed.

(** C4: with hair style [buzz] the hair group holds exactly one mesh, a
    sphere of radius 0.42 scaled by 0.95, 0.85, 0.95; with any other style
    it holds exactly six, one per hair layer; no other parameter enters. *)
Theorem hair_primitive_count (parameters : AvatarParameters) :
  match Hair.style (hair parameters) with
  | Hair.buzz =>
    children (hairGroup parameters) = [buzz_mesh parameters]
    /\ List.length (children (hairGroup parameters)) = 1
    /\ scale (buzz_mesh parameters)
       = {| Three.x := 0.95; Three.y := 0.85; Three.z := 0.95 |}%float
    /\ sphere_args (buzz_mesh parameters) = (0.42%float, 48, 48)
  | _ =>
    children (hairGroup parameters)
      = map (hair_layer_mesh parameters) (hairLayers (hair parameters))
    /\ List.length (children (hairGroup parameters)) = 6
  end.
Proof.
  destruct (Hair.style (hair parameters)) eqn:Hstyle.
  1: { unfold hairGroup; cbn [children]. rewrite Hstyle. repeat split. }
  all: assert (Hne : Hair.style (hair parameters) <> Hair.buzz) by congruence.
  all: rewrite (hairGroup_layered parameters Hne); split; [reflexivity|].
  all: now rewrite length_map.
Qed.

End HairProperties.

(** The theorem at the default parameters, whose style is [medium], with
    the sample colours: the factors, and the first mesh in the primary
    colour. *)
Lemma hair_layer_colors_witness :
  Store.Hair.style (Store.hair Store.defaultParameters) <> Store.Hair.buzz
  /\ map Scene.blend_factor (Scene.hairLayers (Store.hair Store.defaultParameters))
     = [0; 0.09999999999999999; 0.19999999999999998; 0.3; 0.39999999999999997; 0.5]%float
  /\ exists first rest,
       Scene.children (Scene.hairGroup (H := Sample.three) Store.defaultParameters)
       = first :: rest
       /\ Three.Color_eqb (Scene.color (Scene.material first))
                          (Scene.hairHue (H := Sample.three) Store.defaultParameters)
          = true.
Proof.
  assert (Hstyle : Store.Hair.style (Store.hair Store.defaultParameters)
                   <> Store.Hair.buzz) by discriminate.
  destruct (hair_layer_colors (H := Sample.three) Store.defaultParameters Hstyle)
    as (_ & _ & Hfactors & _ & Hfirst).
  split; [exact Hstyle|]. split; [exact Hfactors|].
  apply Hfirst. reflexivity.
Defined.

(** C2 as stated fails: at the default parameters (style [medium]) the
    factor of the top layer is [5 / 6 * 0.6 = 0.5], which lies more than
    0.05 below 0.6. *)
Lemma top_layer_blend_is_half :
  Store.Hair.style (Store.hair Store.defaultParameters) <> Store.Hair.buzz
  /\ last (map Scene.blend_factor (Scene.hairLayers (Store.hair Store.defaultParameters)))
     = Some 0.5%float
  /\ (0.5 + 0.05 <? 0.6)%float = true.
Proof. split; [discriminate|]. split; reflexivity. Qed.

(** ** The animator *)

Section Writes.
Import Scene.
Context {A : Type} (f : nat -> A).

Lemma writes_S s n (a : list A) :
  writes f s (S n) a = writes f (S s) n (<[3 * s + 2 := f (3 * s)]> a).
Proof. reflexivity. Qed.

Lemma writes_length s n (a : list A) : List.length (writes f s n a) = List.length a.
Proof.
  revert s a. induction n as [|n IH]; intros s a; [reflexivity|].
  rewrite writes_S, IH. apply length_insert.
Qed.

(** An index that is no [3 * k + 2] of the window keeps its value. *)
Lemma writes_miss s n (a : list A) j :
  j mod 3 <> 2 \/ j < 3 * s + 2 \/ 3 * (s + n) + 2 <= j ->
  writes f s n a !! j = a !! j.
Proof.
  revert s a. induction n as [|n IH]; intros s a Hj; [reflexivity|].
  rewrite writes_S, IH by lia. apply list_lookup_insert_ne. lia.
Qed.

(** An index [3 * k + 2] of the window, inside the array, holds [f (3 * k)]. *)
Lemma writes_hit s n (a : list A) j :
  j mod 3 = 2 -> 3 * s + 2 <= j -> j < 3 * (s + n) + 2 -> j < List.length a ->
  writes f s n a !! j = Some (f (j - 2)).
Proof.
  revert s a. induction n as [|n IH]; intros s a Hmod Hlo Hhi Hlen; [lia|].
  rewrite writes_S.
  destruct (decide (j = 3 * s + 2)) as [->|Hne].
  - rewrite writes_miss by lia.
    rewrite list_lookup_insert_eq by lia. do 2 f_equal. lia.
  - apply IH; try lia. rewrite length_insert. lia.
Qed.

End Writes.

Section AnimatorProperties.
Import Store Scene.
Context `{JsRuntime} `{ThreeLib}.

Lemma wave_cloth_writes elapsed parameters basePositions array :
  wave_cloth elapsed parameters basePositions array
  = writes (fun i => Math_fround (cloth_z elapsed parameters basePositions i))
           0 ((List.length array + 2) / 3) array.
Proof. reflexivity. Qed.

Lemma wave_cloth_length elapsed parameters basePositions array :
  List.length (wave_cloth elapsed parameters basePositions array) = List.length array.
Proof. rewrite wave_cloth_writes. apply writes_length. Qed.

Lemma wave_cloth_z elapsed parameters basePositions array j :
  j mod 3 = 2 -> j < List.length array ->
  wave_cloth elapsed parameters basePositions array !! j
  = Some (Math_fround (cloth_z elapsed parameters basePositions (j - 2))).
Proof.
  intros Hmod Hlen. rewrite wave_cloth_writes.
  rewrite writes_hit; [reflexivity|lia..].
Qed.

Lemma wave_cloth_xy elapsed parameters basePositions array j :
  j mod 3 <> 2 ->
  wave_cloth elapsed parameters basePositions array !! j = array !! j.
Proof. intros Hmod. rewrite wave_cloth_writes. apply writes_miss. now left. Qed.

(** The waved buffer does not depend on the z entries it started from. *)
Lemma wave_cloth_from_rest elapsed parameters basePositions a b :
  agree_off_z a b ->
  wave_cloth elapsed parameters basePositions a
  = wave_cloth elapsed parameters basePositions b.
Proof.
  intros [Hlen Hxy]. apply list_eq. intros j.
  destruct (decide (j mod 3 = 2)) as [Hmod|Hmod].
  - destruct (decide (j < List.length a)) as [Hj|Hj].
    + rewrite !wave_cloth_z by lia. reflexivity.
    + rewrite !lookup_ge_None_2; [reflexivity|rewrite wave_cloth_length; lia..].
  - rewrite !wave_cloth_xy by assumption. now apply Hxy.
Qed.

Lemma wave_cloth_agree elapsed parameters basePositions a :
  agree_off_z (wave_cloth elapsed parameters basePositions a) a.
Proof.
  split; [apply wave_cloth_length|]. intros j Hmod. now apply wave_cloth_xy.
Qed.

Lemma useFrame_idempotent elapsed parameters basePositions refs :
  useFrame elapsed parameters basePositions (useFrame elapsed parameters basePositions refs)
  = useFrame elapsed parameters basePositions refs.
Proof.
  unfold useFrame. cbn [hairGroupRef clothGeometry]. f_equal.
  - now destruct (hairGroupRef refs).
  - destruct basePositions as [|b0 base]; [reflexivity|].
    cbn [position_array].
    now rewrite (wave_cloth_from_rest _ _ _ _ _ (wave_cloth_agree _ _ _ _)).
Qed.

Lemma agree_off_z_trans a b c : agree_off_z a b -> agree_off_z b c -> agree_off_z a c.
Proof.
  intros [Hab Hab'] [Hbc Hbc']. split; [congruence|].
  intros j Hj. now rewrite Hab', Hbc'.
Qed.

Lemma agree_off_z_sym a b : agree_off_z a b -> agree_off_z b a.
Proof. intros [Hab Hab']. split; [congruence|]. intros j Hj. now rewrite Hab'. Qed.

Lemma useFrame_as_mounted elapsed parameters hair plane refs :
  as_mounted hair plane refs ->
  as_mounted hair plane (useFrame elapsed parameters (position_array plane) refs).
Proof.
  intros (Hhair & Hcloth & Hempty). unfold as_mounted, useFrame.
  cbn [hairGroupRef clothGeometry]. split; [|split].
  - rewrite <- Hhair. now destruct (hairGroupRef refs).
  - destruct (position_array plane) as [|b0 base] eqn:Hbase; [exact Hcloth|].
    cbn [position_array]. eapply agree_off_z_trans; [apply wave_cloth_agree|exact Hcloth].
  - intros Hnil. rewrite Hnil. now apply Hempty.
Qed.

Lemma frames_as_mounted history hair plane refs :
  as_mounted hair plane refs ->
  as_mounted hair plane (frames history (position_array plane) refs).
Proof.
  unfold frames. revert refs.
  induction history as [|[elapsed parameters] history IH]; intros refs Hrefs; [exact Hrefs|].
  cbn [foldl]. apply IH. now apply useFrame_as_mounted.
Qed.

(** The frame after any states that are as mounted is one and the same. *)
Lemma useFrame_as_mounted_eq elapsed parameters hair plane refs refs' :
  as_mounted hair plane refs -> as_mounted hair plane refs' ->
  useFrame elapsed parameters (position_array plane) refs
  = useFrame elapsed parameters (position_array plane) refs'.
Proof.
  intros (Hhair & Hcloth & Hempty) (Hhair' & Hcloth' & Hempty'). unfold useFrame. f_equal.
  - rewrite <- Hhair' in Hhair.
    destruct (hairGroupRef refs) as [rot|], (hairGroupRef refs') as [rot'|];
      try discriminate; [|reflexivity].
    injection Hhair as Hry. unfold sway. cbn. now rewrite Hry.
  - destruct (position_array plane) as [|b0 base] eqn:Hbase.
    + now rewrite Hempty, Hempty'.
    + pose proof (agree_off_z_trans _ _ _ Hcloth (agree_off_z_sym _ _ Hcloth')) as Hagree.
      now rewrite (wave_cloth_from_rest _ _ _ _ _ Hagree).
Qed.

(** C9: with [basePositions] the copy [useClothGeometry] takes of the
    plane's positions, the state a frame leaves at a given elapsed time and
    parameter set is the same after any two histories of earlier frames: it
    is a function of the elapsed time, the parameters and what was mounted
    (the rest positions among it) alone.  The frame sets the hair rotations
    about x and z to values in which the rotation before does not occur;
    at each z index [j = 3 * k + 2] inside the live buffer it leaves the
    rounded value computed from the rest buffer at [3 * k], and it leaves
    every other entry as it was; run a second time at the same elapsed time
    it changes nothing. *)
Theorem frame_is_function_of_rest (elapsed : float) (parameters : AvatarParameters)
    (hair : option Euler) (plane : ClothGeometry)
    (history history' : list (float * AvatarParameters)) (refs : Refs) :
  let basePositions := snd (useClothGeometry plane) in
  useFrame elapsed parameters basePositions (frames history basePositions (mounted hair plane))
  = useFrame elapsed parameters basePositions
             (frames history' basePositions (mounted hair plane))
  /\ hairGroupRef (useFrame elapsed parameters basePositions refs)
     = (fun rotation =>
          {| rx := Math_cos (elapsed * 1.2) * (hairFlex parameters * 0.5);
             ry := ry rotation;
             rz := Math_sin (elapsed * (1.4 + curliness parameters)) * hairFlex parameters
          |}%float) <$> hairGroupRef refs
  /\ (forall array j,
        wave_cloth elapsed parameters basePositions array !! j
        = if decide (j mod 3 = 2 /\ j < List.length array)
          then Some (Math_fround (cloth_z elapsed parameters basePositions (j - 2)))
          else array !! j)
  /\ useFrame elapsed parameters basePositions (useFrame elapsed parameters basePositions refs)
     = useFrame elapsed parameters basePositions refs.
Proof.
  cbv zeta. cbn [useClothGeometry snd].
  assert (Hmounted : as_mounted hair plane (mounted hair plane)).
  { repeat split. }
  split; [|split; [|split]].
  - apply (useFrame_as_mounted_eq _ _ hair plane); now apply frames_as_mounted.
  - reflexivity.
  - intros array j. destruct (decide _) as [[Hmod Hj]|Hno].
    + now apply wave_cloth_z.
    + destruct (decide (j mod 3 = 2)) as [Hmod|Hmod].
      * rewrite !lookup_ge_None_2; [reflexivity|rewrite ?wave_cloth_length; lia..].
      * now apply wave_cloth_xy.
  - apply useFrame_idempotent.
Qed.

End AnimatorProperties.

(** The theorem on a two-vertex cloth: the frame at [elapsed = 1] right
    after mounting and after an earlier frame at [elapsed = 0.5] leave the
    same state, with the z entries computed from the rest positions. *)
Lemma frame_is_function_of_rest_witness :
  Scene.useFrame (H := Sample.runtime) (H0 := Sample.three)
    1 Store.defaultParameters Sample.rest
    (Scene.useFrame (H := Sample.runtime) (H0 := Sample.three)
       0.5 Store.defaultParameters Sample.rest Sample.refs)
  = Scene.useFrame (H := Sample.runtime) (H0 := Sample.three)
      1 Store.defaultParameters Sample.rest Sample.refs
  /\ Scene.position_array
       (Scene.clothGeometry
          (Scene.useFrame (H := Sample.runtime) (H0 := Sample.three)
             1 Store.defaultParameters Sample.rest Sample.refs))
     = [0; 0; 0.5475000000000001; 1; 0; 0.86424999999999996]%float.
Proof.
  split; [|vm_compute; reflexivity].
  apply (frame_is_function_of_rest (H := Sample.runtime) (H0 := Sample.three)
           1 Store.defaultParameters (Scene.hairGroupRef Sample.refs)
           (Scene.clothGeometry Sample.refs)
           [(0.5%float, Store.defaultParameters)] [] Sample.refs).
Defined.

(** ** The scene flattener *)

Section FlattenerProperties.
Import Exporters.
Context `{JsRuntime} `{ThreeLib}.

(** Induction over a scene graph, with the property at hand for every
    child. *)
Lemma Object3D_forall_ind (P : Object3D -> Prop) :
  (forall isMesh geometry matrix children,
     Forall P children -> P (Node isMesh geometry matrix children)) ->
  forall object, P object.
Proof.
  intros Hnode. fix IH 1. intros [isMesh geometry matrix children].
  apply Hnode. induction children as [|child children IHc]; constructor.
  - apply IH.
  - exact IHc.
Qed.

Lemma push3_length a v : List.length (push3 a v) = List.length a + 3.
Proof. unfold push3. now rewrite length_app. Qed.

Lemma push_vertex_parallel world pos nrm out i :
  parallel out -> parallel (push_vertex world pos nrm out i).
Proof.
  intros [Heq Hmod]. unfold parallel, push_vertex; cbn [vertices normals].
  destruct nrm; rewrite ?push3_length, ?length_app; cbn [List.length]; lia.
Qed.

Lemma visit_parallel world isMesh geometry out out' :
  parallel out -> visit world isMesh geometry out = Some out' -> parallel out'.
Proof.
  intros Hout. unfold visit.
  destruct isMesh; cbn [negb]; [|now intros [= <-]].
  destruct geometry as [geometry|]; [|now intros [= <-]].
  destruct (position (toNonIndexed geometry)) as [pos|]; [|discriminate].
  intros [= <-]. generalize (seq 0 (List.length pos)). intros l.
  revert out Hout. induction l as [|i l IH]; intros out Hout; [exact Hout|].
  cbn [foldl]. apply IH. now apply push_vertex_parallel.
Qed.

Lemma traverse_parallel object : forall parent out out',
  parallel out -> traverse parent object out = Some out' -> parallel out'.
Proof.
  induction object as [isMesh geometry matrix children IH] using Object3D_forall_ind.
  intros parent out out' Hout. cbn [traverse].
  destruct (visit _ isMesh geometry out) as [out1|] eqn:Hvisit; [|discriminate].
  cbn [mbind option_bind].
  apply (visit_parallel _ _ _ _ _ Hout) in Hvisit.
  generalize (Some (matrixWorld parent matrix)). intros world.
  revert out1 Hvisit. induction IH as [|child children Hchild _ IHc]; intros out1 Hout1.
  - now intros [= <-].
  - destruct (traverse world child out1) as [out2|] eqn:Hchild'; [|discriminate].
    cbn [mbind option_bind]. apply IHc. exact (Hchild _ _ _ Hout1 Hchild').
Qed.





End FlattenerProperties.

(** ** The FBX writer *)

Section FbxProperties.
Import Exporters.

Lemma polygonCount_div (vertices : list float) :
  polygonCount vertices = Z.of_nat (List.length vertices / 9).
Proof.
  rewrite Nat2Z.inj_div.
  unfold polygonCount, vertexCount, Qfloor, Qdiv, Qmult, Qinv, inject_Z.
  cbn [Qnum Qden]. f_equal; lia.
Qed.

Lemma foldl_app_flat_map {A B} (f : A -> list B) (l : list A) (acc : list B) :
  foldl (fun acc x => acc ++ f x) acc l = acc ++ flat_map f l.
Proof.
  revert acc. induction l as [|x l IH]; intros acc; cbn.
  - now rewrite app_nil_r.
  - now rewrite IH, app_assoc.
Qed.

Lemma polygonIndices_flat_map (vertices : list float) :
  polygonIndices vertices = flat_map polygon (seq 0 (List.length vertices / 9)).
Proof.
  unfold polygonIndices. rewrite polygonCount_div, Nat2Z.id.
  exact (foldl_app_flat_map polygon _ []).
Qed.

Lemma polygons_length (m : nat) : List.length (flat_map polygon (seq 0 m)) = 3 * m.
Proof.
  induction m as [|m IH]; [reflexivity|].
  rewrite seq_S, flat_map_app, length_app, IH. cbn. lia.
Qed.

Lemma polygons_triple (m i : nat) :
  i < m -> take 3 (drop (3 * i) (flat_map polygon (seq 0 m))) = polygon i.
Proof.
  induction m as [|m IH]; [lia|]. intros Hi.
  rewrite seq_S, flat_map_app. cbn [flat_map]. rewrite app_nil_r. cbn [Nat.add].
  destruct (decide (i = m)) as [->|Hne].
  - rewrite drop_app_length'; [reflexivity|now rewrite polygons_length].
  - rewrite drop_app_le by (rewrite polygons_length; lia).
    rewrite take_app_le by (rewrite length_drop, polygons_length; lia).
    apply IH. lia.
Qed.

Context `{JsRuntime} `{ThreeLib}.


End FbxProperties.


(** ** The glTF export *)

Section GltfProperties.
Import Exporters.
Context `{JsRuntime} `{ThreeLib}.




End GltfProperties.



(** * Further properties of the sources *)

#[local] Ltac open_parameters p :=
  destruct p as [[? ? ? ? ? ?] [? ? ? ? ?] [? ? ? ? ?] [? ? ? ? ? ?] [? ? ? ? ?] [? ? ? ? ?]].

(** ** Single-field edits *)

Section EditProperties.
Import Store.

(** X1: after [setParameter(section, key, value)] the store holds [value]
    at [parameters[section][key]] and at every other section and key what it
    held before; the uploads and the save time are untouched. *)
Theorem setParameter_read_back (e : ParameterEdit) (state : AvatarState) :
  Lookup.entry (Lookup.path e) (parameters (setParameter e state)) = e
  /\ (forall at_path, at_path <> Lookup.path e ->
        Lookup.entry at_path (parameters (setParameter e state))
        = Lookup.entry at_path (parameters state))
  /\ uploadedImages (setParameter e state) = uploadedImages state
  /\ lastSavedISO (setParameter e state) = lastSavedISO state.
Proof.
  destruct state as [p st g u l]. cbn. open_parameters p.
  split; [|split; [|split; reflexivity]].
  - destruct e as [k v|k v|k v|k v|k v|k v]; destruct k; reflexivity.
  - intros k Hk.
    destruct e as [k' v|k' v|k' v|k' v|k' v|k' v]; destruct k';
      destruct k as [k|k|k|k|k|k]; destruct k; try reflexivity; now destruct Hk.
Qed.

(** X2: of two [setParameter] calls on the same section and key the later
    one wins, the store being as if the earlier had not been made; two
    calls on different keys commute, the whole store (status included)
    being the same in either order; and writing back the value a key
    already holds leaves the parameters as they are. *)
Theorem setParameter_compose (e1 e2 : ParameterEdit) (state : AvatarState) :
  (Lookup.path e1 = Lookup.path e2 ->
     setParameter e2 (setParameter e1 state) = setParameter e2 state)
  /\ (Lookup.path e1 <> Lookup.path e2 ->
        setParameter e2 (setParameter e1 state) = setParameter e1 (setParameter e2 state))
  /\ (forall at_path,
        parameters (setParameter (Lookup.entry at_path (parameters state)) state)
        = parameters state).
Proof.
  destruct state as [p st g u l]. open_parameters p.
  split; [|split].
  - intros Hk.
    destruct e1 as [k1 v1|k1 v1|k1 v1|k1 v1|k1 v1|k1 v1]; destruct k1;
      destruct e2 as [k2 v2|k2 v2|k2 v2|k2 v2|k2 v2|k2 v2]; destruct k2;
      try discriminate Hk; destruct st; reflexivity.
  - intros Hk.
    destruct e1 as [k1 v1|k1 v1|k1 v1|k1 v1|k1 v1|k1 v1]; destruct k1;
      destruct e2 as [k2 v2|k2 v2|k2 v2|k2 v2|k2 v2|k2 v2]; destruct k2;
      try (now destruct Hk); destruct st; reflexivity.
  - intros k. destruct k as [k|k|k|k|k|k]; destruct k; reflexivity.
Qed.

End EditProperties.

(** The second and third part on the default state: the eye spacing set
    twice, and the eye spacing and the hair style set in either order. *)
Lemma setParameter_compose_witness :
  Store.setParameter (Store.EditFacial Store.Facial.EyeSpacing 0.75%float)
    (Store.setParameter (Store.EditFacial Store.Facial.EyeSpacing 0.25%float) Store.initialState)
  = Store.setParameter (Store.EditFacial Store.Facial.EyeSpacing 0.75%float) Store.initialState
  /\ Store.setParameter (Store.EditHair Store.Hair.KStyle Store.Hair.long)
       (Store.setParameter (Store.EditFacial Store.Facial.EyeSpacing 0.25%float)
                           Store.initialState)
     = Store.setParameter (Store.EditFacial Store.Facial.EyeSpacing 0.25%float)
         (Store.setParameter (Store.EditHair Store.Hair.KStyle Store.Hair.long)
                             Store.initialState).
Proof.
  split.
  - apply (setParameter_compose (Store.EditFacial Store.Facial.EyeSpacing 0.25%float)
             (Store.EditFacial Store.Facial.EyeSpacing 0.75%float) Store.initialState).
    reflexivity.
  - apply (setParameter_compose (Store.EditFacial Store.Facial.EyeSpacing 0.25%float)
             (Store.EditHair Store.Hair.KStyle Store.Hair.long) Store.initialState).
    discriminate.
Defined.

(** ** Uploads *)

Section UploadProperties.
Import Store.

Lemma filter_other_ids (id : string) (images : list UploadedImage.t) :
  Forall (fun image => UploadedImage.id image <> id) images ->
  List.filter (fun img => negb (String.eqb (UploadedImage.id img) id)) images = images.
Proof.
  induction 1 as [|image images Hne _ IH]; [reflexivity|].
  cbn. apply String.eqb_neq in Hne. rewrite Hne. cbn. now rewrite IH.
Qed.

(** X3: after [removeUpload(id)] no uploaded image has that id; every image
    with another id is still there, and those that stay keep their order;
    when no image has the id, the call changes nothing in the store. *)
Theorem removeUpload_by_id (id : string) (state : AvatarState) :
  Forall (fun image => UploadedImage.id image <> id) (uploadedImages (removeUpload id state))
  /\ (forall image, UploadedImage.id image <> id ->
        In image (uploadedImages state) -> In image (uploadedImages (removeUpload id state)))
  /\ sublist (uploadedImages (removeUpload id state)) (uploadedImages state)
  /\ (Forall (fun image => UploadedImage.id image <> id) (uploadedImages state) ->
        removeUpload id state = state).
Proof.
  split; [|split; [|split]].
  - cbn. apply List.Forall_forall. intros image Hin. apply List.filter_In in Hin as [_ Hid].
    apply negb_true_iff, String.eqb_neq in Hid. exact Hid.
  - intros image Hid Hin. cbn. apply List.filter_In. split; [exact Hin|].
    now apply negb_true_iff, String.eqb_neq.
  - cbn. induction (uploadedImages state) as [|image images IH]; [constructor|].
    cbn. destruct (negb _); now constructor.
  - intros Hnone. destruct state as [p st g u l]. unfold removeUpload, set. cbn in *.
    now rewrite filter_other_ids.
Qed.

(** X4: [removeUpload(image.id)] undoes [addUpload(image)] when no image
    uploaded before has the id of [image]: the store is again what it
    was. *)
Theorem addUpload_removeUpload (image : UploadedImage.t) (state : AvatarState) :
  Forall (fun other => UploadedImage.id other <> UploadedImage.id image)
         (uploadedImages state) ->
  removeUpload (UploadedImage.id image) (addUpload image state) = state.
Proof.
  intros Hfresh. destruct state as [p st g u l]. unfold removeUpload, addUpload, set. cbn in *.
  rewrite List.filter_app, filter_other_ids by exact Hfresh. cbn.
  rewrite String.eqb_refl. cbn. now rewrite app_nil_r.
Qed.

Lemma addUpload_all (images : list UploadedImage.t) : forall state,
  foldl (fun state image => addUpload image state) state images
  = set (fun state => {| parameters' := None; status' := None; generationProgress' := None;
                         uploadedImages' := Some (uploadedImages state ++ images);
                         lastSavedISO' := None |}) state.
Proof.
  induction images as [|image images IH]; intros [p st g u l]; cbn [foldl].
  - unfold set. cbn. now rewrite app_nil_r.
  - rewrite IH. unfold addUpload, set. cbn. now rewrite <- app_assoc.
Qed.

End UploadProperties.

(** The round trip on a store that holds one other image. *)
Lemma addUpload_removeUpload_witness :
  Store.removeUpload "face.png-1"
    (Store.addUpload Example.portrait (Store.addUpload Example.profile_shot Store.initialState))
  = Store.addUpload Example.profile_shot Store.initialState.
Proof.
  apply (addUpload_removeUpload Example.portrait
           (Store.addUpload Example.profile_shot Store.initialState)).
  repeat constructor. discriminate.
Defined.

(** ** A generation and what interrupts it *)

Section TimerProperties.
Import Store.

Lemma leb_shift (c a b : Z) : (c + a <=? c + b)%Z = (a <=? b)%Z.
Proof. destruct (Z.leb_spec a b); [apply Z.leb_le|apply Z.leb_gt]; lia. Qed.

Lemma table_steps :
  Schedule.table
  = [ (0, 0%float); (500, 18%float); (1000, 37%float); (1500, 58%float);
      (2000, 76%float); (2500, 92%float); (3000, 100%float) ]%Z.
Proof. vm_compute. reflexivity. Qed.

(** The store, clock and pending timers [t] ms after a generation was
    started from [state] at [now], when nothing else has acted on the
    store. *)
Lemma generateAvatar_elapse (state : AvatarState) (now t : Z) :
  status state <> processing ->
  elapse (now + t) (generateAvatar {| store := state; clock := now; timers := [] |})
  = {| store :=
         foldl (fun state step => step_callback (snd step) state)
               (setGenerationProgress 0 (setStatus processing state))
               (List.filter (fun step => (fst step <=? t)%Z) Schedule.table);
       clock := Z.max now (now + t);
       timers :=
         map (fun step => {| due := now + fst step; callback := step_callback (snd step) |})
             (List.filter (fun step => negb (fst step <=? t)%Z) Schedule.table) |}.
Proof.
  intros Hstatus. unfold elapse.
  rewrite (generateAvatar_timers state now [] Hstatus).
  assert (Hstore : store (generateAvatar {| store := state; clock := now; timers := [] |})
                   = setGenerationProgress 0 (setStatus processing state)).
  { unfold generateAvatar. cbn [store]. destruct (status state); [|congruence|]; reflexivity. }
  assert (Hclock : clock (generateAvatar {| store := state; clock := now; timers := [] |}) = now).
  { unfold generateAvatar. cbn [store]. destruct (status state); reflexivity. }
  rewrite Hstore, Hclock. clear Hstore Hclock.
  cbn [app map firing_order foldl enqueue due];
    repeat (rewrite ltb_shift; cbn [Z.ltb Z.compare Pos.compare Pos.compare_cont enqueue due]).
  change [ {| due := now + 0; callback := step_callback 0 |};
           {| due := now + 500; callback := step_callback 18 |};
           {| due := now + 1000; callback := step_callback 37 |};
           {| due := now + 1500; callback := step_callback 58 |};
           {| due := now + 2000; callback := step_callback 76 |};
           {| due := now + 2500; callback := step_callback 92 |};
           {| due := now + 3000; callback := step_callback 100 |} ]%Z
    with (map (fun step => {| due := now + fst step; callback := step_callback (snd step) |})
              Schedule.table).
  rewrite !List.filter_map_swap, foldl_fmap. cbn [due callback].
  f_equal; [f_equal|f_equal]; apply List.filter_ext; intros step; now rewrite leb_shift.
Qed.

(** What a run of step callbacks leaves of a store. *)
Lemma steps_fold (l : list (Z * float)) : forall state,
  let final := foldl (fun state step => step_callback (snd step) state) state l in
  status final = (if existsb (fun step => (100 <=? snd step)%float) l then ready else status state)
  /\ generationProgress final = default (generationProgress state) (snd <$> last l)
  /\ parameters final = parameters state
  /\ uploadedImages final = uploadedImages state
  /\ lastSavedISO final = lastSavedISO state.
Proof.
  induction l as [|step l IH]; intros state; [now repeat split|].
  cbn [foldl existsb]. specialize (IH (step_callback (snd step) state)).
  cbv zeta in *. destruct IH as (-> & -> & -> & -> & ->).
  split; [|split; [|now repeat split]].
  - cbn [status step_callback set default status'].
    now destruct (100 <=? snd step)%float, (existsb _ l).
  - destruct l as [|step' l]; [reflexivity|].
    change (last (step :: step' :: l)) with (last (step' :: l)).
    destruct (last (step' :: l)) eqn:Hlast; [reflexivity|].
    now apply last_None in Hlast.
Qed.

Lemma enqueue_last (t : Timer) (queue : list Timer) :
  Forall (fun u => (due u <= due t)%Z) queue -> enqueue t queue = queue ++ [t].
Proof.
  induction 1 as [|u queue Hu _ IH]; [reflexivity|].
  cbn. destruct (Z.ltb_spec (due t) (due u)); [lia|]. now rewrite IH.
Qed.

(** Timers registered by increasing due time fire in registration order. *)
Lemma firing_order_sorted (pending : list Timer) :
  StronglySorted (fun a b => (due a <= due b)%Z) pending -> firing_order pending = pending.
Proof.
  unfold firing_order. intros Hsorted.
  enough (Hgen : forall queue,
             Forall (fun u => Forall (fun t => (due u <= due t)%Z) pending) queue ->
             foldl (fun queue t => enqueue t queue) queue pending = queue ++ pending)
    by (apply (Hgen []); constructor).
  induction Hsorted as [|t pending _ IH Ht]; intros queue Hqueue; cbn [foldl].
  - now rewrite app_nil_r.
  - rewrite enqueue_last.
    + rewrite IH; [now rewrite <- app_assoc|].
      apply Forall_app. split.
      * eapply Forall_impl; [exact Hqueue|]. cbn. intros u Hu. now inversion Hu.
      * now repeat constructor.
    + eapply Forall_impl; [exact Hqueue|]. cbn. intros u Hu. now inversion Hu.
Qed.

Lemma StronglySorted_filter {A} (R : A -> A -> Prop) (f : A -> bool) (l : list A) :
  StronglySorted R l -> StronglySorted R (List.filter f l).
Proof.
  induction 1 as [|x l _ IH Hx]; cbn; [constructor|].
  destruct (f x); [|exact IH]. constructor; [exact IH|].
  apply List.Forall_forall. intros y Hy. apply List.filter_In in Hy as [Hy _].
  rewrite List.Forall_forall in Hx. now apply Hx.
Qed.

Lemma StronglySorted_map {A B} (f : A -> B) (R : A -> A -> Prop) (R' : B -> B -> Prop)
    (l : list A) :
  (forall x y, R x y -> R' (f x) (f y)) -> StronglySorted R l -> StronglySorted R' (map f l).
Proof.
  intros Hf. induction 1 as [|x l _ IH Hx]; cbn; constructor; [exact IH|].
  apply List.Forall_map. eapply Forall_impl; [exact Hx|]. intros y. apply Hf.
Qed.

Lemma table_sorted : StronglySorted (fun a b => (fst a <= fst b)%Z) Schedule.table.
Proof. rewrite table_steps. repeat constructor; cbn; lia. Qed.

(** Every step is due within 3000 ms, and the step due at 3000 ms is the
    one whose value reaches 100. *)
Lemma table_last :
  Forall (fun step => (fst step <= 3000)%Z
                      /\ ((100 <=? snd step)%float = true <-> fst step = 3000%Z))
         Schedule.table.
Proof.
  rewrite table_steps.
  repeat (constructor;
          [split; [cbn; lia
                  |cbn; split; [try discriminate; reflexivity|try lia; reflexivity]]|]).
  constructor.
Qed.

Lemma filter_all {A} (f : A -> bool) (l : list A) :
  Forall (fun x => f x = true) l ->
  List.filter f l = l /\ List.filter (fun x => negb (f x)) l = [].
Proof.
  induction 1 as [|x l Hx _ [IH1 IH2]]; [now split|].
  cbn. rewrite Hx. cbn. now rewrite IH1, IH2.
Qed.

(** X5: a generation started (from a status other than [processing], with
    no timer pending) stays [processing] at every time before the 3000 ms
    are over, with the parameters untouched, if nothing else acts on the
    store; [generateAvatar] called at such a time, once or twice, changes
    nothing: no status, progress or timer.  Whatever the state, a second
    call right after a first adds nothing to it. *)
Theorem generateAvatar_while_running (state : AvatarState) (now t : Z) :
  status state <> processing -> (t < 3000)%Z ->
  let running :=
    elapse (now + t) (generateAvatar {| store := state; clock := now; timers := [] |}) in
  status (store running) = processing
  /\ parameters (store running) = parameters state
  /\ generateAvatar running = running
  /\ generateAvatar (generateAvatar running) = running
  /\ (forall r, generateAvatar (generateAvatar r) = generateAvatar r).
Proof.
  intros Hstatus Ht running.
  assert (Hrun : status (store running) = processing).
  { subst running. rewrite generateAvatar_elapse by exact Hstatus. cbn [store].
    destruct (steps_fold (List.filter (fun step => (fst step <=? t)%Z) Schedule.table)
                (setGenerationProgress 0 (setStatus processing state))) as (-> & _).
    replace (existsb _ _) with false; [reflexivity|].
    symmetry. apply not_true_is_false. intros Hex.
    apply List.existsb_exists in Hex as (step & Hin & Hfull).
    apply List.filter_In in Hin as [Hin Hdue]. apply Z.leb_le in Hdue.
    pose proof table_last as Hlast. rewrite List.Forall_forall in Hlast.
    apply Hlast in Hin as [_ Hiff]. apply Hiff in Hfull. lia. }
  assert (Hidle : generateAvatar running = running).
  { unfold generateAvatar. now rewrite Hrun. }
  split; [exact Hrun|]. split; [|split; [exact Hidle|split; [now rewrite !Hidle|]]].
  - subst running. rewrite generateAvatar_elapse by exact Hstatus. cbn [store].
    now destruct (steps_fold (List.filter (fun step => (fst step <=? t)%Z) Schedule.table)
                    (setGenerationProgress 0 (setStatus processing state)))
      as (_ & _ & -> & _).
  - intros [[p st g u l] clock pending]. destruct st; reflexivity.
Qed.

(** X6: replacing the parameters does not cancel a generation.  When
    [setParameters(params)] (or [resetParameters], which is
    [setParameters(defaultParameters)]) is called before the 3000 ms of a
    generation are over, the status is [idle] after the call, and timers
    of the generation are still pending; once they have run, the status is
    [ready] and the progress 100, with the replaced parameters, although no
    generation was started for them. *)
Theorem replaced_parameters_do_not_cancel (state : AvatarState) (params : AvatarParameters)
    (now t later : Z) :
  status state <> processing -> (t < 3000)%Z -> (3000 <= later)%Z ->
  let running :=
    elapse (now + t) (generateAvatar {| store := state; clock := now; timers := [] |}) in
  let replaced := dispatch (setParameters params) running in
  let finished := elapse (now + later) replaced in
  status (store replaced) = idle
  /\ timers replaced <> []
  /\ status (store finished) = ready
  /\ generationProgress (store finished) = 100%float
  /\ parameters (store finished) = params
  /\ timers finished = []
  /\ resetParameters = setParameters defaultParameters.
Proof.
  intros Hstatus Ht Hlater running replaced finished.
  pose proof table_last as Hlast.
  subst finished replaced running. rewrite generateAvatar_elapse by exact Hstatus.
  set (rest := List.filter (fun step => negb (fst step <=? t)%Z) Schedule.table).
  set (mk := fun step : Z * float =>
               {| due := now + fst step; callback := step_callback (snd step) |}).
  assert (Hrest : exists front, rest = front ++ [(3000%Z, 100%float)]).
  { exists (List.filter (fun step => negb (fst step <=? t)%Z) (removelast Schedule.table)).
    subst rest. rewrite table_steps. cbn [removelast].
    change [ (0, 0%float); (500, 18%float); (1000, 37%float); (1500, 58%float);
             (2000, 76%float); (2500, 92%float); (3000, 100%float) ]%Z
      with ([ (0, 0%float); (500, 18%float); (1000, 37%float); (1500, 58%float);
              (2000, 76%float); (2500, 92%float) ] ++ [ (3000, 100%float) ])%Z.
    rewrite List.filter_app. cbn [List.filter fst].
    destruct (Z.leb_spec 3000 t); [lia|]. reflexivity. }
  assert (Hdue : Forall (fun tm => (due tm <=? now + later)%Z = true) (map mk rest)).
  { apply List.Forall_map, List.Forall_forall. intros step Hin.
    subst rest. apply List.filter_In in Hin as [Hin _].
    rewrite List.Forall_forall in Hlast. apply Hlast in Hin as [Hle _].
    cbn. apply Z.leb_le. lia. }
  assert (Hsorted : firing_order (map mk rest) = map mk rest).
  { apply firing_order_sorted.
    apply (StronglySorted_map mk (fun a b => (fst a <= fst b)%Z)); [cbn; intros; lia|].
    apply StronglySorted_filter, table_sorted. }
  apply filter_all in Hdue as [Hall Hnone].
  unfold dispatch, elapse. cbn [store timers clock].
  rewrite Hsorted, Hall, Hnone, foldl_fmap. cbn [callback mk].
  split; [reflexivity|]. split.
  { destruct Hrest as [front ->]. rewrite map_app. now destruct (map _ front). }
  destruct (steps_fold rest (setParameters params
             (foldl (fun state step => step_callback (snd step) state)
                    (setGenerationProgress 0 (setStatus processing state))
                    (List.filter (fun step => (fst step <=? t)%Z) Schedule.table))))
    as (-> & -> & -> & _).
  destruct Hrest as [front ->]. rewrite existsb_app, last_snoc. cbn [existsb snd].
  replace (100 <=? 100)%float with true by reflexivity. rewrite orb_true_r.
  now repeat split.
Qed.

End TimerProperties.

(** The theorem 1200 ms into a generation started from the initial state:
    the status is [processing], and a further call changes nothing. *)
Lemma generateAvatar_while_running_witness :
  let running :=
    Store.elapse 1200
      (Store.generateAvatar
         {| Store.store := Store.initialState; Store.clock := 0; Store.timers := [] |}) in
  Store.status (Store.store running) = Store.processing
  /\ Store.generateAvatar running = running.
Proof.
  destruct (generateAvatar_while_running Store.initialState 0 1200) as (Hrun & _ & Hcall & _).
  - discriminate.
  - reflexivity.
  - split; [exact Hrun|exact Hcall].
Defined.

(** The theorem on the generation that [resetParameters] interrupts at
    1200 ms: idle after the reset, ready at 3000 ms. *)
Lemma replaced_parameters_do_not_cancel_witness :
  Store.status (Store.store Sample.interrupted) = Store.idle
  /\ Store.status (Store.store (Store.elapse 3000 Sample.interrupted)) = Store.ready
  /\ Store.generationProgress (Store.store (Store.elapse 3000 Sample.interrupted)) = 100%float.
Proof.
  destruct (replaced_parameters_do_not_cancel Store.initialState Store.defaultParameters
              0 1200 3000) as (Hidle & _ & Hready & Hfull & _).
  - discriminate.
  - reflexivity.
  - discriminate.
  - split; [exact Hidle|]. split; [exact Hready|exact Hfull].
Defined.

(** ** The page component *)

Section PageProperties.
Import Store.

(** X7: the restore effect, given the parsed profile: parameters that are
    present replace the store's and set the status to [idle]; images that
    are present are added behind the uploads the store already holds, in
    their order (they replace nothing); a present, non-empty [savedAt]
    becomes the save time; a missing key leaves its part of the store
    alone; the progress is never touched. *)
Theorem restore_profile (parsed : Page.Profile.t) (state : AvatarState) :
  let restored := Page.restore parsed state in
  parameters restored = default (parameters state) (Page.Profile.parameters parsed)
  /\ uploadedImages restored
     = uploadedImages state ++ default [] (Page.Profile.uploadedImages parsed)
  /\ lastSavedISO restored
     = match Page.Profile.savedAt parsed with
       | Some iso => if String.eqb iso "" then lastSavedISO state else Some iso
       | None => lastSavedISO state
       end
  /\ status restored
     = match Page.Profile.parameters parsed with Some _ => idle | None => status state end
  /\ generationProgress restored = generationProgress state.
Proof.
  destruct parsed as [[params|] [images|] [iso|]], state as [p st g u l];
    unfold Page.restore;
    cbn [Page.Profile.parameters Page.Profile.uploadedImages Page.Profile.savedAt];
    rewrite ?addUpload_all; try destruct (String.eqb iso ""); cbn; rewrite ?app_nil_r;
    repeat split; reflexivity.
Qed.


Lemma loaded_uploads (arrivals : list (Page.File * string)) (state : AvatarState) :
  Page.loaded arrivals state
  = foldl (fun state image => addUpload image state) state
      (map (fun arrival =>
              {| UploadedImage.id := Page.file_name (fst arrival) ++ "-" ++ snd arrival;
                 UploadedImage.name := Page.file_name (fst arrival);
                 UploadedImage.src := Page.result (fst arrival);
                 UploadedImage.size := Page.file_size (fst arrival) |}) arrivals).
Proof. unfold Page.loaded. now rewrite foldl_fmap. Qed.

(** X9: [handleUpload] on a store with [before] uploads starts readers for
    the first [5 - before] files at most; when all of them have loaded, in
    whatever order, and nothing else has changed the uploads meanwhile, the
    store holds [before + min(files, 5 - before)] images: never more than 5
    if it held at most 5, and with 5 or more already the store is left as
    it was.  The images held before stay in front, and parameters and
    status are untouched. *)
Theorem handleUpload_capacity (files : list Page.File) (arrivals : list (Page.File * string))
    (state : AvatarState) :
  map fst arrivals ≡ₚ Page.handleUpload files state ->
  let before := List.length (uploadedImages state) in
  let after := Page.loaded arrivals state in
  List.length (uploadedImages after) = before + Nat.min (List.length files) (5 - before)
  /\ (before <= 5 -> List.length (uploadedImages after) <= 5)
  /\ (5 <= before -> after = state)
  /\ take before (uploadedImages after) = uploadedImages state
  /\ parameters after = parameters state
  /\ status after = status state.
Proof.
  intros Hperm before after.
  assert (Hlen : List.length arrivals = Nat.min (List.length files) (5 - before)).
  { rewrite <- (length_map fst arrivals), Hperm. unfold Page.handleUpload, Page.queue.
    fold before. rewrite length_take. lia. }
  subst after. rewrite loaded_uploads, addUpload_all.
  cbn [set uploadedImages uploadedImages' default from_option id parameters parameters'
       status status'].
  rewrite length_app, length_map, Hlen. fold before.
  split; [reflexivity|]. split; [lia|]. split; [|split; [|now split]].
  - intros Hfull. assert (arrivals = []) as -> by (apply nil_length_inv; lia).
    destruct state; unfold set; cbn. now rewrite app_nil_r.
  - subst before. now rewrite take_app_length.
Qed.

End PageProperties.


(** Two files offered to a store that holds four images: one reader is
    started, and the store ends with five. *)
Lemma handleUpload_capacity_witness :
  Page.handleUpload [Example.front; Example.back] Example.crowded = [Example.front]
  /\ List.length
       (Store.uploadedImages (Page.loaded [(Example.front, "uid")%string] Example.crowded))
     = 5.
Proof.
  split; [reflexivity|].
  destruct (handleUpload_capacity [Example.front; Example.back]
              [(Example.front, "uid")%string] Example.crowded) as (Hcount & _).
  - reflexivity.
  - exact Hcount.
Defined.

(** ** What the traversal collects *)

Section CensusProperties.
Import Exporters Census.
Context `{JsRuntime} `{ThreeLib}.

Lemma append_no_streams (out : Streams) : append out no_streams = out.
Proof. destruct out. unfold append. cbn. now rewrite !app_nil_r. Qed.

Lemma append_append (a b c : Streams) : append (append a b) c = append a (append b c).
Proof. unfold append. cbn. now rewrite !app_assoc. Qed.

Lemma push_vertex_append world pos nrm out acc i :
  push_vertex world pos nrm (append out acc) i = append out (push_vertex world pos nrm acc i).
Proof.
  unfold push_vertex, append, push3. cbn [vertices normals].
  destruct nrm; now rewrite <- !app_assoc.
Qed.

Lemma push_vertices_append world pos nrm (l : list nat) : forall out acc,
  foldl (push_vertex world pos nrm) (append out acc) l
  = append out (foldl (push_vertex world pos nrm) acc l).
Proof.
  induction l as [|i l IH]; intros out acc; cbn [foldl]; [reflexivity|].
  now rewrite push_vertex_append, IH.
Qed.

Lemma visit_append world isMesh geometry out :
  visit world isMesh geometry out = append out <$> visit world isMesh geometry no_streams.
Proof.
  unfold visit. destruct isMesh; cbn [negb].
  2: { cbn. now rewrite append_no_streams. }
  destruct geometry as [geometry|]; [|cbn; now rewrite append_no_streams].
  destruct (position (toNonIndexed geometry)) as [pos|]; [|reflexivity].
  cbn [fmap option_fmap option_map]. f_equal.
  rewrite <- push_vertices_append. now rewrite append_no_streams.
Qed.

Lemma traverse_append object : forall parent out,
  traverse parent object out = append out <$> traverse parent object no_streams.
Proof.
  induction object as [isMesh geometry matrix children IH] using Object3D_forall_ind.
  intros parent out. cbn [traverse].
  rewrite (visit_append _ isMesh geometry out).
  destruct (visit _ isMesh geometry no_streams) as [own|]; [|reflexivity].
  cbn [fmap option_fmap option_map mbind option_bind].
  generalize (Some (matrixWorld parent matrix)). intros world.
  revert own. induction IH as [|child children Hchild _ IHc]; intros own.
  - reflexivity.
  - rewrite (Hchild world (append out own)), (Hchild world own).
    destruct (traverse world child no_streams) as [sub|]; [|reflexivity].
    cbn [fmap option_fmap option_map mbind option_bind].
    rewrite append_append. apply IHc.
Qed.

(** X10: the traversal only ever adds behind what the streams hold: run
    from streams [out] it yields [out] followed by what it yields from
    empty streams.  So what [collectMeshes] returns for a node is what the
    node itself contributes, followed by what [collectMeshes] returns for
    each child (under the node's world matrix), in the order of the
    children; and it throws exactly when the node or one of the children
    does. *)
Theorem collectMeshes_compositional (parent : option Matrix4) (isMesh : bool)
    (geometry : option BufferGeometry) (matrix : Matrix4) (children : list Object3D)
    (out : Streams) :
  let world := matrixWorld parent matrix in
  traverse parent (Node isMesh geometry matrix children) out
  = append out <$> collectMeshes parent (Node isMesh geometry matrix children)
  /\ collectMeshes parent (Node isMesh geometry matrix children)
     = (own ← visit world isMesh geometry no_streams;
        parts ← mapM (collectMeshes (Some world)) children;
        Some (foldl append own parts)).
Proof.
  intros world. split; [apply traverse_append|].
  unfold collectMeshes. cbn [traverse]. fold world. fold no_streams.
  destruct (visit world isMesh geometry no_streams) as [own|]; [|reflexivity].
  cbn [mbind option_bind].
  generalize (Some world). intros w.
  revert own. induction children as [|child children IH]; intros own; [reflexivity|].
  rewrite traverse_append. cbn [mapM].
  destruct (traverse w child no_streams) as [sub|]; [|reflexivity].
  cbn [fmap option_fmap option_map mbind option_bind].
  rewrite IH. destruct (mapM _ children); reflexivity.
Qed.

Lemma flat_map_const {A A' B} (l : list A) (l' : list A') (c : list B) :
  List.length l = List.length l' -> flat_map (fun _ => c) l = flat_map (fun _ => c) l'.
Proof.
  revert l'. induction l as [|x l IH]; intros [|x' l']; try discriminate; [reflexivity|].
  intros [= Hlen]. cbn. now rewrite (IH l').
Qed.

Lemma push_vertices_streams world pos nrm (l : list nat) : forall out,
  foldl (push_vertex world pos nrm) out l
  = append out {|
      vertices :=
        flat_map (fun i => coordinates (applyMatrix4 world (fromBufferAttribute pos i))) l;
      normals :=
        match nrm with
        | Some attribute =>
          flat_map (fun i => coordinates (normalize (applyMatrix3 (getNormalMatrix world)
                                                       (fromBufferAttribute attribute i)))) l
        | None => flat_map (fun _ => [0; 1; 0]%float) l
        end |}.
Proof.
  induction l as [|i l IH]; intros out; cbn [foldl].
  - destruct nrm; cbn [flat_map]; exact (eq_sym (append_no_streams out)).
  - rewrite IH. unfold append, push_vertex, push3, coordinates. cbn [vertices normals flat_map].
    destruct nrm; now rewrite <- !app_assoc.
Qed.

Lemma flat_map_attribute {B} (f : Three.Vector3 -> list B) (attribute : list Three.Vector3) :
  flat_map (fun i => f (fromBufferAttribute attribute i)) (seq 0 (List.length attribute))
  = flat_map f attribute.
Proof.
  induction attribute as [|v attribute IH] using rev_ind; [reflexivity|].
  rewrite length_app. cbn [List.length]. rewrite Nat.add_1_r, seq_S, !flat_map_app.
  cbn [flat_map Nat.add]. f_equal.
  - rewrite <- IH, !flat_map_concat_map. f_equal.
    apply List.map_ext_in. intros i Hi. apply in_seq in Hi.
    unfold fromBufferAttribute. now rewrite lookup_app_l by lia.
  - unfold fromBufferAttribute. now rewrite list_lookup_middle.
Qed.

(** X11: what one mesh contributes.  For a mesh whose de-indexed geometry
    has the positions [positions], the callback adds, behind what the
    streams hold: to the vertices, for each position in order, the three
    coordinates of the position moved by the mesh's world matrix, each
    passed through [formatNumber]; to the normals, for each position, the
    formatted coordinates of the normal at that index moved by the normal
    matrix and normalised, or [0, 1, 0], unformatted, when the geometry has
    no normals.  For an indexed geometry the positions are those the index
    names, in index order, a shared vertex once per mention; for a
    geometry without index they are its position attribute. *)
Theorem mesh_streams (world : Matrix4) (geometry : BufferGeometry)
    (positions : list Three.Vector3) (out : Streams) :
  position (toNonIndexed geometry) = Some positions ->
  visit world true (Some geometry) out
  = Some (append out {|
      vertices := flat_map (fun v => coordinates (applyMatrix4 world v)) positions;
      normals :=
        match normal (toNonIndexed geometry) with
        | Some attribute =>
          flat_map (fun i => coordinates (normalize (applyMatrix3 (getNormalMatrix world)
                                                       (fromBufferAttribute attribute i))))
                   (seq 0 (List.length positions))
        | None => flat_map (fun _ => [0; 1; 0]%float) positions
        end |})
  /\ (forall indices attribute,
        index geometry = Some indices -> position geometry = Some attribute ->
        positions = map (fromBufferAttribute attribute) indices)
  /\ (index geometry = None -> position geometry = Some positions).
Proof.
  intros Hpos. split; [|split].
  - unfold visit. cbn [negb]. rewrite Hpos, push_vertices_streams. do 3 f_equal.
    + apply (flat_map_attribute (fun v => coordinates (applyMatrix4 world v))).
    + destruct (normal (toNonIndexed geometry)); [reflexivity|].
      apply flat_map_const. now rewrite length_seq.
  - intros indices attribute Hi Hp. unfold toNonIndexed in Hpos. rewrite Hi in Hpos.
    cbn in Hpos. rewrite Hp in Hpos. cbn in Hpos. now injection Hpos as <-.
  - intros Hi. unfold toNonIndexed in Hpos. now rewrite Hi in Hpos.
Qed.

Lemma push_vertices_length world pos nrm (l : list nat) : forall out,
  let out' := foldl (push_vertex world pos nrm) out l in
  List.length (vertices out') = List.length (vertices out) + 3 * List.length l
  /\ List.length (normals out') = List.length (normals out) + 3 * List.length l.
Proof.
  induction l as [|i l IH]; intros out; cbn [foldl List.length]; [cbv zeta; lia|].
  specialize (IH (push_vertex world pos nrm out i)). cbv zeta in *.
  destruct IH as [-> ->]. unfold push_vertex. cbn [vertices normals].
  destruct nrm; rewrite ?push3_length, ?length_app; cbn [List.length]; lia.
Qed.

Lemma visit_count world isMesh geometry out out' :
  visit world isMesh geometry out = Some out' ->
  List.length (vertices out') = List.length (vertices out) + 3 * count isMesh geometry
  /\ List.length (normals out') = List.length (normals out) + 3 * count isMesh geometry.
Proof.
  unfold visit, count. destruct isMesh; cbn [negb]; [|intros [= <-]; lia].
  destruct geometry as [geometry|]; cbn [from_option]; [|intros [= <-]; lia].
  destruct (position (toNonIndexed geometry)) as [pos|]; [|discriminate].
  intros [= <-]. cbn [from_option].
  pose proof (push_vertices_length world pos (normal (toNonIndexed geometry))
                (seq 0 (List.length pos)) out) as Hlen.
  cbv zeta in Hlen. now rewrite length_seq in Hlen.
Qed.

Lemma traverse_count object : forall parent out out',
  traverse parent object out = Some out' ->
  List.length (vertices out') = List.length (vertices out) + 3 * emitted object
  /\ List.length (normals out') = List.length (normals out) + 3 * emitted object.
Proof.
  induction object as [isMesh geometry matrix children IH] using Object3D_forall_ind.
  intros parent out out'. cbn [traverse emitted].
  destruct (visit _ isMesh geometry out) as [out1|] eqn:Hvisit; [|discriminate].
  cbn [mbind option_bind]. apply visit_count in Hvisit as [Hv Hn].
  generalize (Some (matrixWorld parent matrix)). intros world.
  enough (Hloop : forall out1 out',
            (fix each (children : list Object3D) (out : Streams) : option Streams :=
               match children with
               | [] => Some out
               | child :: children => out ← traverse world child out; each children out
               end) children out1 = Some out' ->
            List.length (vertices out')
            = List.length (vertices out1) + 3 * list_sum (map emitted children)
            /\ List.length (normals out')
               = List.length (normals out1) + 3 * list_sum (map emitted children)).
  { intros Hout. apply Hloop in Hout. lia. }
  clear out out' out1 Hv Hn.
  induction IH as [|child children Hchild _ IHc]; intros out1 out'.
  - intros [= <-]. cbn. lia.
  - destruct (traverse world child out1) as [out2|] eqn:Hchild'; [|discriminate].
    cbn [mbind option_bind]. intros Hrest.
    apply Hchild in Hchild'. apply IHc in Hrest.
    change (list_sum (map emitted (child :: children)))
      with (emitted child + list_sum (map emitted children)). lia.
Qed.

(** X12: each stream [collectMeshes] returns holds three numbers for every
    iteration of the vertex loop, over all meshes of the graph.  A mesh
    whose geometry has an index runs the loop once per index entry (not
    once per stored position), one without index once per position; a node
    that is no mesh, or a mesh without geometry, not at all. *)
Theorem collectMeshes_vertex_count (parent : option Matrix4) (root : Object3D) (out : Streams) :
  collectMeshes parent root = Some out ->
  List.length (vertices out) = 3 * emitted root
  /\ List.length (normals out) = 3 * emitted root
  /\ (forall geometry indices positions,
        index geometry = Some indices -> position geometry = Some positions ->
        count true (Some geometry) = List.length indices)
  /\ (forall geometry positions,
        index geometry = None -> position geometry = Some positions ->
        count true (Some geometry) = List.length positions)
  /\ (forall geometry, count false geometry = 0)
  /\ count true None = 0.
Proof.
  intros Hout. apply traverse_count in Hout as [Hv Hn]. cbn in Hv, Hn.
  split; [exact Hv|]. split; [exact Hn|]. split; [|split; [|now split]].
  - intros geometry indices positions Hi Hp. unfold count. cbn [from_option].
    unfold toNonIndexed. rewrite Hi, Hp. cbn. now rewrite length_map.
  - intros geometry positions Hi Hp. unfold count. cbn [from_option].
    unfold toNonIndexed. now rewrite Hi, Hp.
Qed.

Lemma push_vertices_default world pos (l : list nat) : forall out,
  normals (foldl (push_vertex world pos None) out l)
  = normals out ++ flat_map (fun _ => [0; 1; 0]%float) l.
Proof.
  induction l as [|i l IH]; intros out; cbn [foldl flat_map]; [now rewrite app_nil_r|].
  rewrite IH. cbn [push_vertex normals]. now rewrite <- app_assoc.
Qed.

Lemma toNonIndexed_normal geometry :
  normal geometry = None -> normal (toNonIndexed geometry) = None.
Proof.
  intros Hn. unfold toNonIndexed. destruct (index geometry); [cbn; now rewrite Hn|exact Hn].
Qed.

Lemma traverse_default_normals object : forall parent out out',
  without_normals object = true ->
  traverse parent object out = Some out' ->
  normals out' = normals out ++ flat_map (fun _ => [0; 1; 0]%float) (seq 0 (emitted object)).
Proof.
  induction object as [isMesh geometry matrix children IH] using Object3D_forall_ind.
  intros parent out out'. cbn [traverse emitted without_normals]. rewrite andb_true_iff.
  intros [Hgeometry Hchildren].
  destruct (visit _ isMesh geometry out) as [out1|] eqn:Hvisit; [|discriminate].
  cbn [mbind option_bind].
  assert (Hown : normals out1
                 = normals out
                   ++ flat_map (fun _ => [0; 1; 0]%float) (seq 0 (count isMesh geometry))).
  { revert Hvisit. unfold visit, count. destruct isMesh; cbn [negb].
    2: { intros [= <-]. cbn. now rewrite app_nil_r. }
    destruct geometry as [geometry|]; cbn [from_option] in *.
    2: { intros [= <-]. cbn. now rewrite app_nil_r. }
    apply bool_decide_eq_true in Hgeometry. apply toNonIndexed_normal in Hgeometry.
    rewrite Hgeometry.
    destruct (position (toNonIndexed geometry)) as [pos|]; [|discriminate].
    intros [= <-]. cbn [from_option]. apply push_vertices_default. }
  generalize (Some (matrixWorld parent matrix)). intros world.
  enough (Hloop : forall out1 out',
            (fix each (children : list Object3D) (out : Streams) : option Streams :=
               match children with
               | [] => Some out
               | child :: children => out ← traverse world child out; each children out
               end) children out1 = Some out' ->
            normals out'
            = normals out1
              ++ flat_map (fun _ => [0; 1; 0]%float) (seq 0 (list_sum (map emitted children)))).
  { intros Hout. apply Hloop in Hout. rewrite Hout, Hown, <- app_assoc. f_equal.
    rewrite <- flat_map_app. apply flat_map_const. rewrite length_app, !length_seq. reflexivity. }
  clear out out' out1 Hvisit Hown.
  induction IH as [|child children Hchild _ IHc]; intros out1 out'.
  - intros [= <-]. cbn. now rewrite app_nil_r.
  - cbn [forallb] in Hchildren. apply andb_true_iff in Hchildren as [Hc Hcs].
    destruct (traverse world child out1) as [out2|] eqn:Hchild'; [|discriminate].
    cbn [mbind option_bind]. intros Hrest.
    apply (Hchild _ _ _ Hc) in Hchild'. apply (IHc Hcs) in Hrest.
    rewrite Hrest, Hchild', <- app_assoc. f_equal.
    rewrite <- flat_map_app. apply flat_map_const.
    change (list_sum (map emitted (child :: children)))
      with (emitted child + list_sum (map emitted children)).
    rewrite length_app, !length_seq. reflexivity.
Qed.

(** X13: when no geometry of the graph has a [normal] attribute, the normal
    stream [collectMeshes] returns is the triple [0, 1, 0] once per vertex,
    whatever the world matrices: every vertex gets the up vector, neither
    transformed nor formatted. *)
Theorem collectMeshes_default_normals (parent : option Matrix4) (root : Object3D)
    (out : Streams) :
  without_normals root = true ->
  collectMeshes parent root = Some out ->
  normals out = flat_map (fun _ => [0; 1; 0]%float) (seq 0 (emitted root))
  /\ (forall i, i < emitted root ->
        take 3 (drop (3 * i) (normals out)) = [0; 1; 0]%float).
Proof.
  intros Hplain Hout. apply (traverse_default_normals _ _ _ _ Hplain) in Hout.
  cbn [normals no_streams app] in Hout. split; [exact Hout|].
  rewrite Hout. generalize (emitted root). intros n.
  assert (Hlen : forall m,
            List.length (flat_map (fun _ : nat => [0; 1; 0]%float) (seq 0 m)) = 3 * m).
  { intros m. induction m as [|m IHm]; [reflexivity|].
    rewrite seq_S, flat_map_app, length_app, IHm. cbn. lia. }
  induction n as [|n IH]; intros i Hi; [lia|].
  rewrite seq_S, flat_map_app. cbn [flat_map Nat.add app].
  destruct (decide (i = n)) as [->|Hne].
  - rewrite drop_app_length'; [reflexivity|now rewrite Hlen].
  - rewrite drop_app_le by (rewrite Hlen; lia).
    rewrite take_app_le by (rewrite length_drop, Hlen; lia).
    apply IH. lia.
Qed.

Lemma traverse_meshless object : forall parent out,
  meshless object = true -> traverse parent object out = Some out.
Proof.
  induction object as [isMesh geometry matrix children IH] using Object3D_forall_ind.
  intros parent out. cbn [traverse meshless]. rewrite andb_true_iff.
  intros [Hmesh Hchildren]. apply negb_true_iff in Hmesh. subst isMesh.
  cbn [visit negb mbind option_bind].
  generalize (Some (matrixWorld parent matrix)). intros world.
  induction IH as [|child children Hchild _ IHc]; [reflexivity|].
  cbn [forallb] in Hchildren. apply andb_true_iff in Hchildren as [Hc Hcs].
  rewrite (Hchild world out Hc). cbn [mbind option_bind]. now apply IHc.
Qed.

(** X14: a graph without any mesh is exported without error: [collectMeshes]
    returns two empty streams, and the FBX file has empty [Vertices],
    [PolygonVertexIndex] and [Normals] arrays, each declared with length
    0. *)
Theorem export_meshless (now : Timestamp) (parent : option Matrix4) (group : Object3D) :
  meshless group = true ->
  collectMeshes parent group = Some no_streams
  /\ exportAvatarAsFBX now parent group
     = Some {| CreationTimeStamp := now;
               Vertices_count := 0; Vertices := [];
               PolygonVertexIndex_count := 0; PolygonVertexIndex := [];
               Normals_count := 0; Normals := [];
               fbx_type := "application/octet-stream" |}.
Proof.
  intros Hnone. unfold exportAvatarAsFBX, collectMeshes.
  fold no_streams. rewrite (traverse_meshless group parent no_streams Hnone).
  split; reflexivity.
Qed.

Lemma referenced_polygons (m : nat) :
  map referenced (flat_map polygon (seq 0 m)) = map Z.of_nat (seq 0 (3 * m)).
Proof.
  induction m as [|m IH]; [reflexivity|].
  replace (3 * S m) with (3 * m + 3) by lia.
  rewrite seq_S, flat_map_app, seq_app, !map_app, IH. f_equal.
  cbn [flat_map seq map app Nat.add polygon]. unfold referenced.
  repeat match goal with |- context [(?a <? 0)%Z] => destruct (Z.ltb_spec a 0); try lia end.
  f_equal; [lia|]. f_equal; [lia|]. f_equal. lia.
Qed.

(** X15: in an exported FBX file with [n] vertices, the polygon-index array
    read back (a negative entry [-(k + 1)] standing for vertex [k]) is
    0, 1, ..., [3 * (n / 3) - 1]: every vertex below [3 * (n / 3)] is
    referenced exactly once, in stream order, and the [n mod 3] vertices
    left over by no polygon.  Every entry addresses a vertex that exists;
    the negative entries are exactly those at positions 2, 5, 8, ...; and
    the file declares as many normal coordinates as vertex coordinates,
    [3 * n]. *)
Theorem fbx_indices_reference_vertices (now : Timestamp) (parent : option Matrix4)
    (group : Object3D) (file : FbxFile) :
  exportAvatarAsFBX now parent group = Some file ->
  let n := List.length (Vertices file) / 3 in
  map referenced (PolygonVertexIndex file) = map Z.of_nat (seq 0 (3 * (n / 3)))
  /\ Forall (fun entry => (- Z.of_nat n <= entry < Z.of_nat n)%Z) (PolygonVertexIndex file)
  /\ (forall j entry, PolygonVertexIndex file !! j = Some entry ->
        (entry < 0)%Z <-> j mod 3 = 2)
  /\ Normals_count file = Vertices_count file
  /\ Vertices_count file = 3 * n
  /\ PolygonVertexIndex_count file = n - n mod 3.
Proof.
  unfold exportAvatarAsFBX.
  destruct (collectMeshes parent group) as [out|] eqn:Hout; [|discriminate].
  intros [= <-]. cbn [fbx_of_streams Vertices PolygonVertexIndex PolygonVertexIndex_count
                      Normals_count Vertices_count].
  pose proof (traverse_parallel group parent no_streams out) as Hpar.
  destruct Hpar as [Hsame Hmod]; [now split|exact Hout|].
  set (len := List.length (vertices out)) in *.
  set (n := len / 3). rewrite polygonIndices_flat_map. fold len.
  assert (Hm : len / 9 = n / 3) by (subst n; lia). rewrite Hm.
  assert (Href := referenced_polygons (n / 3)).
  split; [exact Href|].
  assert (Hentry : forall j entry,
            flat_map polygon (seq 0 (n / 3)) !! j = Some entry ->
            j < 3 * (n / 3)
            /\ (if decide (j mod 3 = 2) then entry = (- Z.of_nat j - 1)%Z
                else entry = Z.of_nat j)).
  { intros j entry Hj.
    assert (Hlt : j < 3 * (n / 3)).
    { apply lookup_lt_Some in Hj. now rewrite polygons_length in Hj. }
    split; [exact Hlt|].
    pose proof (polygons_triple (n / 3) (j / 3)) as Htriple.
    assert (Hat : polygon (j / 3) !! (j mod 3) = Some entry).
    { rewrite <- Htriple by lia. rewrite lookup_take_lt by lia.
      rewrite lookup_drop. rewrite <- Hj. f_equal. lia. }
    unfold polygon in Hat. clear Htriple Hj.
    remember (j / 3) as q eqn:Hq. remember (j mod 3) as k eqn:Hk.
    assert (Hcases : k = 0 \/ k = 1 \/ k = 2) by lia.
    destruct Hcases as [-> | [-> | ->]]; injection Hat as <-; destruct (decide _); lia. }
  split; [|split; [|split; [|split]]].
  - apply Forall_lookup. intros j entry Hj.
    apply Hentry in Hj as [Hlt Hj]. destruct (decide _); lia.
  - intros j entry Hj. apply Hentry in Hj as [Hlt Hj]. destruct (decide _); lia.
  - now rewrite Hsame.
  - subst n. lia.
  - rewrite polygons_length. lia.
Qed.

End CensusProperties.

(** The sample triangle, stored with an index: its three indexed vertices,
    with the default normal for each. *)
Lemma mesh_streams_witness :
  Exporters.visit (H := Sample.runtime) (H0 := Sample.three) tt true (Some Sample.triangle)
                  Census.no_streams
  = Some {| Exporters.vertices := [0; 0; 0; 0; 0; 0; 0; 0; 0]%float;
            Exporters.normals := [0; 1; 0; 0; 1; 0; 0; 1; 0]%float |}.
Proof.
  destruct (mesh_streams (H := Sample.runtime) (H0 := Sample.three) tt Sample.triangle
              [Sample.corner 0 0; Sample.corner 1 0; Sample.corner 0 1] Census.no_streams)
    as (Hvisit & _).
  - reflexivity.
  - exact Hvisit.
Defined.

(** The sample scene holds one mesh of three vertices: nine numbers in each
    stream. *)
Lemma collectMeshes_vertex_count_witness :
  Census.emitted (H0 := Sample.three) Sample.scene = 3
  /\ exists out,
       Exporters.collectMeshes (H := Sample.runtime) (H0 := Sample.three) None Sample.scene
       = Some out
       /\ List.length (Exporters.vertices out) = 9
       /\ List.length (Exporters.normals out) = 9.
Proof.
  split; [reflexivity|].
  destruct (Exporters.collectMeshes (H := Sample.runtime) (H0 := Sample.three)
              None Sample.scene) as [out|] eqn:Hout; [|discriminate Hout].
  exists out. split; [reflexivity|].
  destruct (collectMeshes_vertex_count (H := Sample.runtime) (H0 := Sample.three)
              None Sample.scene out Hout) as (Hv & Hn & _).
  split; [exact Hv|exact Hn].
Defined.

(** The sample triangle has no normals: the normal stream is three up
    vectors. *)
Lemma collectMeshes_default_normals_witness :
  exists out,
    Exporters.collectMeshes (H := Sample.runtime) (H0 := Sample.three) None Sample.scene
    = Some out
    /\ Exporters.normals out = [0; 1; 0; 0; 1; 0; 0; 1; 0]%float.
Proof.
  destruct (Exporters.collectMeshes (H := Sample.runtime) (H0 := Sample.three)
              None Sample.scene) as [out|] eqn:Hout; [|discriminate Hout].
  exists out. split; [reflexivity|].
  destruct (collectMeshes_default_normals (H := Sample.runtime) (H0 := Sample.three)
              None Sample.scene out) as (Hnormals & _).
  - reflexivity.
  - exact Hout.
  - exact Hnormals.
Defined.

(** The empty group exports to an empty file. *)
Lemma export_meshless_witness :
  Exporters.collectMeshes (H := Sample.runtime) (H0 := Sample.three) None Example.empty_group
  = Some Census.no_streams.
Proof.
  destruct (export_meshless (H := Sample.runtime) (H0 := Sample.three)
              Sample.now None Example.empty_group) as (Hnone & _).
  - reflexivity.
  - exact Hnone.
Defined.

(** The sample scene: the index array [0, 1, -3] read back is 0, 1, 2. *)
Lemma fbx_indices_reference_vertices_witness :
  exists file,
    Exporters.exportAvatarAsFBX (H := Sample.runtime) (H0 := Sample.three)
                                Sample.now None Sample.scene = Some file
    /\ map Census.referenced (Exporters.PolygonVertexIndex file) = [0; 1; 2]%Z.
Proof.
  destruct (Exporters.exportAvatarAsFBX (H := Sample.runtime) (H0 := Sample.three)
              Sample.now None Sample.scene) as [file|] eqn:Hfile; [|discriminate Hfile].
  exists file. split; [reflexivity|].
  destruct (fbx_indices_reference_vertices (H := Sample.runtime) (H0 := Sample.three)
              Sample.now None Sample.scene file Hfile) as (Href & _).
  rewrite Href. vm_compute in Hfile. injection Hfile as <-. reflexivity.
Defined.

(** ** The whole model *)

Section ModelProperties.
Import Store Model.
Context `{JsRuntime} `{ThreeLib} `{ColorLib}.

(** X16: whatever the parameters, [AvatarModel] builds 10 meshes when the
    hair style is [buzz] and 15 otherwise (torso, head, two eyes, nose,
    mouth, two ears and cloth, with one or six hair meshes); exactly four
    of them (head, nose and the two ears) are given a material by
    [<primitive>], and all four the one [skinMaterial] object. *)
Theorem AvatarModel_meshes (parameters : AvatarParameters) :
  meshCount (AvatarModel parameters)
  = match Hair.style (hair parameters) with Hair.buzz => 10 | _ => 15 end
  /\ primitives (AvatarModel parameters) = replicate 4 (skinMaterial parameters).
Proof.
  split; [|reflexivity].
  cbn. unfold Scene.hairGroup. cbn. destruct (Hair.style (hair parameters)); reflexivity.
Qed.

(** X17: seven parameters the page offers controls for have no effect on
    the avatar's scene: [head.jawWidth], [head.neckThickness],
    [skin.freckles], [body.weight], [body.muscle], [body.shoulderWidth] and
    [clothing.outfit].  Setting any of them to any value leaves the element
    [AvatarModel] returns and what the frame callback does unchanged. *)
Theorem AvatarModel_unread (e : ParameterEdit) (parameters : AvatarParameters) :
  In (Lookup.path e) unread ->
  AvatarModel (edit_parameters e parameters) = AvatarModel parameters
  /\ forall elapsed basePositions refs,
       Scene.useFrame elapsed (edit_parameters e parameters) basePositions refs
       = Scene.useFrame elapsed parameters basePositions refs.
Proof.
  intros Hin. open_parameters parameters.
  destruct e as [k v|k v|k v|k v|k v|k v]; destruct k; cbn in Hin;
    try (exfalso; intuition discriminate); split; reflexivity.
Qed.

(** X18: the model tells [buzz] from the other hair styles and nothing
    more: changing the style from one of [short], [medium], [long],
    [braids] to another of them leaves the element [AvatarModel] returns
    and what the frame callback does unchanged. *)
Theorem AvatarModel_style (style : Hair.Style) (parameters : AvatarParameters) :
  Hair.style (hair parameters) <> Hair.buzz -> style <> Hair.buzz ->
  AvatarModel (edit_parameters (EditHair Hair.KStyle style) parameters) = AvatarModel parameters
  /\ forall elapsed basePositions refs,
       Scene.useFrame elapsed (edit_parameters (EditHair Hair.KStyle style) parameters)
                      basePositions refs
       = Scene.useFrame elapsed parameters basePositions refs.
Proof.
  intros Hnow Hthen.
  destruct parameters as [facial head skin [now color secondary length curl volume] body clothing].
  cbn in Hnow. split; [|reflexivity].
  destruct style, now; try congruence; reflexivity.
Qed.

End ModelProperties.

(** The default avatar with another body weight is the default avatar. *)
Lemma AvatarModel_unread_witness :
  Model.AvatarModel (H := Sample.three) (H0 := Example.colors)
    (Store.edit_parameters (Store.EditBody Store.Body.Weight 0.9%float) Store.defaultParameters)
  = Model.AvatarModel (H := Sample.three) (H0 := Example.colors) Store.defaultParameters.
Proof.
  destruct (AvatarModel_unread (H := Sample.runtime) (H0 := Sample.three) (H1 := Example.colors)
              (Store.EditBody Store.Body.Weight 0.9%float) Store.defaultParameters)
    as (Hmodel & _).
  - cbn. tauto.
  - exact Hmodel.
Defined.

(** The default avatar, whose style is [medium], with the style [braids]. *)
Lemma AvatarModel_style_witness :
  Model.AvatarModel (H := Sample.three) (H0 := Example.colors)
    (Store.edit_parameters (Store.EditHair Store.Hair.KStyle Store.Hair.braids)
                           Store.defaultParameters)
  = Model.AvatarModel (H := Sample.three) (H0 := Example.colors) Store.defaultParameters.
Proof.
  destruct (AvatarModel_style (H := Sample.runtime) (H0 := Sample.three) (H1 := Example.colors)
              Store.Hair.braids Store.defaultParameters) as (Hmodel & _).
  - discriminate.
  - discriminate.
  - exact Hmodel.
Defined.
